(** * Task management backend: the request handlers of [server.ts]

    A shallow embedding of the Express handlers of [src/server.ts] and the
    properties of the credential store and the task registry.

    Layout of the file:
    - [JS]: the fragment of JavaScript values the handlers compute with
      (truthiness, [===], property access, object spread, [parseInt]);
    - the HTTP request/response records and the server state (the content of
      [users.json] and the module-level [tasks] array);
    - the handlers, one definition per route, in the order of the source;
    - the properties. *)

From Stdlib Require Import ZArith String Ascii List Bool Lia.
From stdpp Require Import gmap strings list fin_maps.

Open Scope string_scope.
Open Scope Z_scope.

(* ===================================================================== *)
(** ** JavaScript values *)
(* ===================================================================== *)

Module JS.

(** Values that reach the handlers: parsed JSON (request bodies, the users
    file), parsed query strings, [undefined] for absent properties, [NaN]
    from [parseInt], and the [Date] object made by [new Date()].
    Numbers are the integral ones: ids, [tasks.length + 1], and what
    [parseInt] returns. *)
#[warnings="-register-all"]
Inductive value : Type :=
  | VUndefined
  | VNull
  | VBool (b : bool)
  | VNum (n : Z)
  | VNaN
  | VStr (s : string)
  | VDate (ms : Z)
  | VArr (l : list value)
  | VObj (m : gmap string value).

(** [!v] is [negb (truthy v)]: the falsy values are [undefined], [null],
    [false], [0], [NaN] and the empty string. *)
Definition truthy (v : value) : bool :=
  match v with
  | VUndefined | VNull | VNaN => false
  | VBool b => b
  | VNum n => negb (n =? 0)
  | VStr s => negb (String.eqb s "")
  | VDate _ | VArr _ | VObj _ => true
  end.

(** [a === b]. Primitives compare by type and value, [NaN] equals nothing.
    Objects (arrays, dates) compare by reference: every comparison in the
    handlers has a value taken from the current request on one side and a
    stored one on the other, which are never the same reference. *)
Definition strict_eq (a b : value) : bool :=
  match a, b with
  | VUndefined, VUndefined => true
  | VNull, VNull => true
  | VBool x, VBool y => Bool.eqb x y
  | VNum x, VNum y => x =? y
  | VStr x, VStr y => String.eqb x y
  | _, _ => false
  end.

(** Property access [o.k]: [undefined] when [o] has no property [k]. *)
Definition get (o : gmap string value) (k : string) : value :=
  default VUndefined (o !! k).

(** Object spread [{ ...a, ...b }]: every key of [b] overwrites. *)
Definition spread (a b : gmap string value) : gmap string value := b ∪ a.

(** *** [parseInt(s)] with no radix argument

    Leading white space is skipped, then an optional sign, then an optional
    [0x]/[0X] prefix (radix 16, else 10), then the longest run of digits of
    the radix; no digit at all gives [NaN]. Strings are sequences of 8-bit
    characters, so the white space is the ASCII one (TAB, LF, VT, FF, CR,
    space). *)

Definition is_white_space (c : ascii) : bool :=
  let n := nat_of_ascii c in
  ((9 <=? n) && (n <=? 13))%nat || (n =? 32)%nat.

Fixpoint trim_start (s : string) : string :=
  match s with
  | String c s' => if is_white_space c then trim_start s' else s
  | EmptyString => s
  end.

Definition digit_value (c : ascii) : option Z :=
  let n := Z.of_nat (nat_of_ascii c) in
  if (48 <=? n) && (n <=? 57) then Some (n - 48)
  else if (97 <=? n) && (n <=? 122) then Some (n - 87)
  else if (65 <=? n) && (n <=? 90) then Some (n - 55)
  else None.

(** The longest prefix of radix-[R] digits; [None] when it is empty. *)
Fixpoint parse_digits (R : Z) (s : string) (acc : option Z) : option Z :=
  match s with
  | String c s' =>
      match digit_value c with
      | Some d => if d <? R then parse_digits R s' (Some (default 0 acc * R + d))
                  else acc
      | None => acc
      end
  | EmptyString => acc
  end.

Definition parseInt (s : string) : value :=
  let inputString := trim_start s in
  let '(sign, rest) :=
    match inputString with
    | String "-" r => (-1, r)
    | String "+" r => (1, r)
    | _ => (1, inputString)
    end in
  let '(R, digits) :=
    match rest with
    | String "0" (String "x" r) => (16, r)
    | String "0" (String "X" r) => (16, r)
    | _ => (10, rest)
    end in
  match parse_digits R digits None with
  | Some n => VNum (sign * n)
  | None => VNaN
  end.

(** *** Array methods used by the handlers *)

(** [Array.prototype.findIndex]; [None] stands for [-1]. *)
Fixpoint findIndex {A} (p : A -> bool) (l : list A) : option nat :=
  match l with
  | [] => None
  | x :: l' => if p x then Some 0%nat else S <$> findIndex p l'
  end.

End JS.
Import JS.

(* ===================================================================== *)
(** ** HTTP messages and server state *)
(* ===================================================================== *)

(** What the handlers read of a request: [req.body] (parsed by
    [express.json()]), [req.params.id] and [req.query]. *)
Record request : Type := Request {
  body : gmap string value;
  params_id : string;
  query : gmap string value
}.

(** What was handed to [res]: [res.json(v)], [res.send(text)], or a bare
    status ([res.sendStatus]). *)
Inductive payload : Type :=
  | Json (v : value)
  | Text (s : string)
  | NoBody.

Record response : Type := Response {
  status : Z;
  sent : payload
}.

(** [{ message: m }] *)
Definition message (m : string) : payload :=
  Json (VObj {[ "message" := VStr m ]}).

(** A handler that [throw]s ends in the error-handling middleware:
    [res.status(500).json({ message: 'Internal Server Error' })]. *)
Definition internal_server_error : response :=
  Response 500 (message "Internal Server Error").

(** The two pieces of mutable state: the content of [users.json] ([None]
    when the file is missing or is not JSON, [Some us] when it holds the
    array [us] of objects) and the in-memory [tasks] array. *)
Record state : Type := State {
  users_file : option (list (gmap string value));
  tasks : list (gmap string value)
}.

Definition set_tasks (ts : list (gmap string value)) (st : state) : state :=
  {| users_file := users_file st; tasks := ts |}.

(** Process start: [let tasks: Task[] = []]; the users file is whatever is
    on disk. *)
Definition initial (file : option (list (gmap string value))) : state :=
  {| users_file := file; tasks := [] |}.

(** [readUsers]: the parsed file, [[]] when reading or parsing throws. *)
Definition readUsers (st : state) : list (gmap string value) :=
  match users_file st with
  | Some users => users
  | None => []
  end.

(** [writeUsers]: the file is rewritten whole. *)
Definition writeUsers (users : list (gmap string value)) (st : state) : state :=
  {| users_file := Some users; tasks := tasks st |}.

(* ===================================================================== *)
(** ** Credential store: [/register] and [/login] *)
(* ===================================================================== *)

Inductive thrown (A : Type) : Type :=
  | Ok (a : A)
  | Throw (what : string).
Arguments Ok {A} a.
Arguments Throw {A} what.

Section Bcrypt.
(** The [bcrypt] package on strings. [hashSync] draws a random salt,
    made an argument here. *)
Context {salt : Type}.
Variable hashSync : string -> Z -> salt -> string.
Variable compareSync : string -> string -> bool.

(** [bcrypt.hashSync(data, rounds)] throws unless [data] is a string. *)
Definition bcrypt_hashSync (data : value) (rounds : Z) (s : salt) : thrown string :=
  match data with
  | VStr p => Ok (hashSync p rounds s)
  | _ => Throw "data must be a string or Buffer"
  end.

(** [bcrypt.compareSync(data, hash)] throws unless both are strings. *)
Definition bcrypt_compareSync (data hash : value) : thrown bool :=
  match data, hash with
  | VStr p, VStr h => Ok (compareSync p h)
  | _, _ => Throw "data and hash must be strings"
  end.

(** [user => user.username === username] *)
Definition has_username (username : value) (user : gmap string value) : bool :=
  strict_eq (get user "username") username.

(** [app.post('/register', ...)] *)
Definition post_register (s : salt) (req : request) (st : state) : response * state :=
  let username := get (body req) "username" in
  let password := get (body req) "password" in
  if negb (truthy username) || negb (truthy password) then
    (Response 400 (message "Username and password are required"), st)
  else
    let users := readUsers st in
    if existsb (has_username username) users then
      (Response 409 (message "Username already exists"), st)
    else
      match bcrypt_hashSync password 10 s with
      | Throw _ => (internal_server_error, st)
      | Ok hashedPassword =>
          let newUser : gmap string value :=
            <[ "username" := username ]> (<[ "password" := VStr hashedPassword ]> ∅) in
          (Response 201 (message "User registered successfully"),
           writeUsers (users ++ [newUser]) st)
      end.

(** [app.post('/login', ...)] *)
Definition post_login (req : request) (st : state) : response * state :=
  let username := get (body req) "username" in
  let password := get (body req) "password" in
  if negb (truthy username) || negb (truthy password) then
    (Response 400 (message "Username and password are required"), st)
  else
    let users := readUsers st in
    match List.find (has_username username) users with
    | None => (Response 401 (message "Invalid username or password"), st)
    | Some user =>
        match bcrypt_compareSync password (get user "password") with
        | Throw _ => (internal_server_error, st)
        | Ok false => (Response 401 (message "Invalid username or password"), st)
        | Ok true => (Response 200 (message "Login successful"), st)
        end
    end.
End Bcrypt.

(* ===================================================================== *)
(** ** Task registry *)
(* ===================================================================== *)

(** [app.get('/', ...)] *)
Definition get_root (req : request) (st : state) : response * state :=
  (Response 200 (Text "Task Management API"), st).

(** [app.post('/task', ...)]; [now] is the clock read by [new Date()]. *)
Definition post_task (now : Z) (req : request) (st : state) : response * state :=
  let b := body req in
  let newTask : gmap string value :=
    <[ "id" := VNum (Z.of_nat (List.length (tasks st)) + 1) ]> (
    <[ "title" := get b "title" ]> (
    <[ "description" := get b "description" ]> (
    <[ "creationDate" := VDate now ]> (
    <[ "dueDate" := get b "dueDate" ]> (
    <[ "assignedTo" := get b "assignedTo" ]> (
    <[ "category" := get b "category" ]> (
    <[ "status" := VStr "Pending" ]> ∅))))))) in
  (Response 201 (Json (VObj newTask)), set_tasks (tasks st ++ [newTask]) st).

(** [task => task.id === taskId] *)
Definition has_id (taskId : value) (task : gmap string value) : bool :=
  strict_eq (get task "id") taskId.

(** [app.get('/task/:id', ...)] *)
Definition get_task (req : request) (st : state) : response * state :=
  let taskId := parseInt (params_id req) in
  match List.find (has_id taskId) (tasks st) with
  | Some task => (Response 200 (Json (VObj task)), st)
  | None => (Response 404 (message "Task not found"), st)
  end.

(** [tasks[i]] read as a spread source or a JSON payload: out of range it
    is [undefined], which spreads to nothing. *)
Definition spread_source (o : option (gmap string value)) : gmap string value :=
  default ∅ o.

Definition json_of (o : option (gmap string value)) : payload :=
  Json (from_option VObj VUndefined o).

(** [app.put('/task/:id', ...)] *)
Definition put_task (req : request) (st : state) : response * state :=
  let taskId := parseInt (params_id req) in
  match findIndex (has_id taskId) (tasks st) with
  | Some taskIndex =>
      let tasks' :=
        <[ taskIndex := spread (spread_source (tasks st !! taskIndex)) (body req) ]>
          (tasks st) in
      (Response 200 (json_of (tasks' !! taskIndex)), set_tasks tasks' st)
  | None => (Response 404 (message "Task not found"), st)
  end.

(** [app.delete('/task/:id', ...)]; [splice(taskIndex, 1)] removes one
    element. *)
Definition delete_task (req : request) (st : state) : response * state :=
  let taskId := parseInt (params_id req) in
  match findIndex (has_id taskId) (tasks st) with
  | Some taskIndex => (Response 204 NoBody, set_tasks (delete taskIndex (tasks st)) st)
  | None => (Response 404 (message "Task not found"), st)
  end.

(** The JSON array sent for a list of tasks. *)
Definition tasks_json (ts : list (gmap string value)) : payload :=
  Json (VArr (VObj <$> ts)).

(** [app.get('/tasks', ...)] *)
Definition get_tasks (req : request) (st : state) : response * state :=
  let assignedTo := get (query req) "assignedTo" in
  let category := get (query req) "category" in
  let filteredTasks := tasks st in
  let filteredTasks :=
    if truthy assignedTo
    then List.filter (fun task => strict_eq (get task "assignedTo") assignedTo) filteredTasks
    else filteredTasks in
  let filteredTasks :=
    if truthy category
    then List.filter (fun task => strict_eq (get task "category") category) filteredTasks
    else filteredTasks in
  if truthy assignedTo || truthy category
  then (Response 200 (tasks_json filteredTasks), st)
  else (Response 200 (tasks_json (tasks st)), st).

(* ===================================================================== *)
(** ** Sequences of task-registry requests *)
(* ===================================================================== *)

Inductive task_op : Type :=
  | Create (now : Z) (fields : gmap string value)
  | Update (id : string) (fields : gmap string value)
  | Delete (id : string)
  | Fetch (id : string).

Definition task_request (id : string) (fields : gmap string value) : request :=
  {| body := fields; params_id := id; query := ∅ |}.

Definition step (o : task_op) (st : state) : response * state :=
  match o with
  | Create now fields => post_task now (task_request "" fields) st
  | Update id fields => put_task (task_request id fields) st
  | Delete id => delete_task (task_request id ∅) st
  | Fetch id => get_task (task_request id ∅) st
  end.

(** The requests are served one after the other; the responses are kept in
    order. *)
Fixpoint run (ops : list task_op) (st : state) : list response * state :=
  match ops with
  | [] => ([], st)
  | o :: ops' =>
      let '(r, st') := step o st in
      let '(rs, st'') := run ops' st' in
      (r :: rs, st'')
  end.

(** The [id] of the task in a response body, when there is one. *)
Definition returned_id (r : response) : option Z :=
  match sent r with
  | Json (VObj task) =>
      match get task "id" with
      | VNum n => Some n
      | _ => None
      end
  | _ => None
  end.

(** The ids held in the registry, in array order. *)
Definition ids (st : state) : list value :=
  (fun task => get task "id") <$> tasks st.

Definition is_create (o : task_op) : Prop :=
  match o with
  | Create _ _ => True
  | _ => False
  end.

(* ===================================================================== *)
(** ** Filters of [GET /tasks] *)
(* ===================================================================== *)

(** The test the handler applies for query parameter [k]: equality with the
    parameter when the parameter is truthy, no test otherwise. *)
Definition clause (q : gmap string value) (k : string)
    (task : gmap string value) : bool :=
  if truthy (get q k) then strict_eq (get task k) (get q k) else true.

Definition matches (q : gmap string value) (task : gmap string value) : bool :=
  clause q "assignedTo" task && clause q "category" task.

(** The specification's reading of [list(filter?)]: every clause present
    in the filter is an equality test, whatever its value. *)
Definition supplied_clause (q : gmap string value) (k : string)
    (task : gmap string value) : bool :=
  match q !! k with
  | Some v => strict_eq (get task k) v
  | None => true
  end.

Definition list_as_specified (q : gmap string value)
    (ts : list (gmap string value)) : list (gmap string value) :=
  List.filter
    (fun task => supplied_clause q "assignedTo" task && supplied_clause q "category" task)
    ts.

(* ===================================================================== *)
(** ** A stand-in for bcrypt *)
(* ===================================================================== *)

(** A concrete pair of functions with the interface of the [Bcrypt]
    section, to run the credential handlers on examples: the "hash" is the
    salt followed by the password, and verification compares the tail. *)
Definition sample_hashSync (p : string) (rounds : Z) (s : string) : string :=
  s ++ p.

Definition sample_compareSync (p h : string) : bool :=
  String.eqb
    (String.substring (String.length h - String.length p) (String.length p) h) p.

(* ===================================================================== *)
(** ** Routing *)
(* ===================================================================== *)

(** One request to the application: the route it matches ([app.post],
    [app.get], [app.put], [app.delete] with their paths) and what the
    handler draws from outside the request (the salt, the clock). *)
Inductive call (salt : Type) : Type :=
  | PostRegister (s : salt) (req : request)
  | PostLogin (req : request)
  | GetRoot (req : request)
  | PostTask (now : Z) (req : request)
  | GetTask (req : request)
  | PutTask (req : request)
  | DeleteTask (req : request)
  | GetTasks (req : request).
Arguments PostRegister {salt} s req.
Arguments PostLogin {salt} req.
Arguments GetRoot {salt} req.
Arguments PostTask {salt} now req.
Arguments GetTask {salt} req.
Arguments PutTask {salt} req.
Arguments DeleteTask {salt} req.
Arguments GetTasks {salt} req.

Section Routing.
Context {salt : Type}.
Variable hashSync : string -> Z -> salt -> string.
Variable compareSync : string -> string -> bool.

Definition serve (c : call salt) (st : state) : response * state :=
  match c with
  | PostRegister s req => post_register hashSync s req st
  | PostLogin req => post_login compareSync req st
  | GetRoot req => get_root req st
  | PostTask now req => post_task now req st
  | GetTask req => get_task req st
  | PutTask req => put_task req st
  | DeleteTask req => delete_task req st
  | GetTasks req => get_tasks req st
  end.

(** Requests are handled one at a time, each on the state the previous one
    left. *)
Fixpoint serve_all (cs : list (call salt)) (st : state) : list response * state :=
  match cs with
  | [] => ([], st)
  | c :: cs' =>
      let '(r, st') := serve c st in
      let '(rs, st'') := serve_all cs' st' in
      (r :: rs, st'')
  end.
End Routing.

(** The routes that belong to the task registry. *)
Definition is_task_call {salt : Type} (c : call salt) : bool :=
  match c with
  | PostRegister _ _ | PostLogin _ => false
  | _ => true
  end.


(** How many of the responses carry the status [code]. *)
Definition count_status (code : Z) (rs : list response) : nat :=
  List.length (List.filter (fun r => status r =? code) rs).

(** The five properties of the body that [POST /task] reads. *)
Definition task_fields : list string :=
  ["title"; "description"; "dueDate"; "assignedTo"; "category"].

(* ===================================================================== *)
(** ** Ids in paths *)
(* ===================================================================== *)

(** The text of [`/task/${taskId}`] after the slash, for an integral
    number: its decimal digits (numbers of 10^21 and more, printed with an
    exponent, are out of reach of an array length). *)
Definition digit_char (d : Z) : ascii := ascii_of_nat (Z.to_nat (48 + d)).

Fixpoint decimal_digits (fuel : nat) (n : Z) (acc : string) : string :=
  match fuel with
  | O => acc
  | S fuel' =>
      let acc' := String (digit_char (n mod 10)) acc in
      if n <? 10 then acc' else decimal_digits fuel' (n / 10) acc'
  end.

Definition number_to_string (n : Z) : string :=
  if n <? 0
  then String "-" (decimal_digits (S (Z.to_nat (Z.log2 (- n)))) (- n) "")
  else decimal_digits (S (Z.to_nat (Z.log2 n))) n "".

(** The digits of [n] followed by the text [rest], as in [/task/12abc]. *)
Definition digits_then (n : Z) (rest : string) : string :=
  decimal_digits (S (Z.to_nat (Z.log2 n))) n rest.

Definition is_decimal_digit (c : ascii) : bool :=
  match digit_value c with
  | Some d => d <? 10
  | None => false
  end.

(** The text does not start with a letter. *)
Definition no_letter_first (s : string) : bool :=
  match s with
  | String c _ =>
      match digit_value c with
      | Some d => d <? 10
      | None => true
      end
  | EmptyString => true
  end.

(** The text is empty or starts with a character that is neither a digit
    nor a letter. *)
Definition other_first (s : string) : bool :=
  match s with
  | String c _ =>
      match digit_value c with
      | Some _ => false
      | None => true
      end
  | EmptyString => true
  end.

(** [`${v}`] for the values a response's [id] can be. *)
Definition template (v : option Z) : string :=
  match v with
  | Some n => number_to_string n
  | None => "undefined"
  end.

(* ===================================================================== *)
(** ** The test suite *)
(* ===================================================================== *)

Section Tests.
Context {salt : Type}.
Variable hashSync : string -> Z -> salt -> string.
Variable compareSync : string -> string -> bool.

(** [beforeAll]: the users file is read without a [try], so a missing file
    throws; a record for [testUser] is pushed and the file written back. *)
Definition beforeAll (s : salt) (st : state) : thrown state :=
  match users_file st with
  | None => Throw "users.json cannot be read"
  | Some users =>
      Ok (writeUsers
            (users ++
             [ <["username" := VStr "testUser"]>
                 (<["password" := VStr (hashSync "testPassword" 10 s)]> ∅) ])
            st)
  end.

(** [afterAll]: the records of [testUser] and [newUser] are filtered out. *)
Definition afterAll (st : state) : thrown state :=
  match users_file st with
  | None => Throw "users.json cannot be read"
  | Some users =>
      Ok (writeUsers
            (List.filter
               (fun user =>
                  negb (strict_eq (get user "username") (VStr "testUser"))
                  && negb (strict_eq (get user "username") (VStr "newUser")))
               users)
            st)
  end.

Definition credentials (username password : string) : request :=
  {| body := <["username" := VStr username]> (<["password" := VStr password]> ∅);
     params_id := ""; query := ∅ |}.

Definition invalid_body : request :=
  {| body := {[ "invalidKey" := VStr "invalidValue" ]}; params_id := ""; query := ∅ |}.

(** The requests of [describe('User Authentication API')], in order. *)
Definition authentication_tests (s1 s2 s3 : salt) : list (call salt) :=
  [ PostRegister s1 (credentials "newUser" "newPassword");
    PostRegister s2 (credentials "testUser" "testPassword");
    PostRegister s3 invalid_body;
    PostLogin (credentials "testUser" "testPassword");
    PostLogin (credentials "testUser" "wrongPassword");
    PostLogin (credentials "nonExistingUser" "anyPassword");
    PostLogin invalid_body ].

(** The requests of [describe('Task Management API')]: the create, then
    the requests whose path is built from the [id] of its response, then
    the three listings. [taskData] is the body of the create. *)
Definition task_tests (now : Z) (taskData : gmap string value) (st : state)
    : list response * state :=
  let '(created, st1) := post_task now (Request taskData "" ∅) st in
  let taskId := template (returned_id created) in
  let '(rs, st2) :=
    serve_all hashSync compareSync
      [ GetTask (Request ∅ taskId ∅);
        PutTask (Request ∅ taskId ∅);
        DeleteTask (Request ∅ taskId ∅);
        GetTasks (Request ∅ "" ∅);
        GetTasks (Request ∅ "" {[ "assignedTo" := VStr "username" ]});
        GetTasks (Request ∅ "" {[ "category" := VStr "categoryName" ]}) ]
      st1 in
  (created :: rs, st2).
End Tests.

(* ===================================================================== *)
(** ** Properties *)
(* ===================================================================== *)

(** *** Values *)

Lemma strict_eq_str (v : value) (s : string) :
  strict_eq v (VStr s) = true <-> v = VStr s.
Proof.
  destruct v; simpl; split; try discriminate.
  - intros H. apply String.eqb_eq in H. by subst.
  - intros [= ->]. apply String.eqb_refl.
Qed.

Lemma strict_eq_num (v : value) (n : Z) :
  strict_eq v (VNum n) = true <-> v = VNum n.
Proof.
  destruct v; simpl; split; try discriminate.
  - intros H. apply Z.eqb_eq in H. by subst.
  - intros [= ->]. apply Z.eqb_refl.
Qed.

Lemma truthy_str (s : string) : truthy (VStr s) = true <-> s ≠ "".
Proof.
  simpl. rewrite negb_true_iff. split.
  - intros H ->. discriminate.
  - intros H. by apply String.eqb_neq.
Qed.

Lemma get_insert_eq (o : gmap string value) (k : string) (v : value) :
  get (<[k := v]> o) k = v.
Proof. unfold get. by rewrite lookup_insert_eq. Qed.

Lemma get_insert_ne (o : gmap string value) (k k' : string) (v : value) :
  k ≠ k' -> get (<[k := v]> o) k' = get o k'.
Proof. intros H. unfold get. by rewrite lookup_insert_ne. Qed.

Lemma get_absent (o : gmap string value) (k : string) :
  o !! k = None -> get o k = VUndefined.
Proof. intros H. unfold get. by rewrite H. Qed.

(** Spreading a one-key object over [t] sets that key. *)
Lemma spread_singleton (t : gmap string value) (a : string) (x : value) :
  spread t {[ a := x ]} = <[a := x]> t.
Proof. unfold spread. by rewrite insert_union_singleton_l. Qed.

(** *** [find] and [findIndex] *)

Lemma findIndex_find {A} (p : A -> bool) (l : list A) (k : nat) :
  findIndex p l = Some k ->
  exists x, l !! k = Some x /\ p x = true /\ List.find p l = Some x.
Proof.
  revert k. induction l as [|y l IH]; intros k; simpl; [discriminate|].
  destruct (p y) eqn:Hy.
  - intros [= <-]. eauto.
  - destruct (findIndex p l) as [k'|]; simpl; [|discriminate].
    intros [= <-]. destruct (IH k' eq_refl) as (x & ? & ? & ?). eauto.
Qed.

Lemma find_findIndex {A} (p : A -> bool) (l : list A) (x : A) :
  List.find p l = Some x ->
  exists k, findIndex p l = Some k /\ l !! k = Some x.
Proof.
  induction l as [|y l IH]; simpl; [discriminate|].
  destruct (p y) eqn:Hy.
  - intros [= <-]. by exists 0%nat.
  - intros H. destruct (IH H) as (k & -> & ?). by exists (S k).
Qed.

Lemma findIndex_None {A} (p : A -> bool) (l : list A) :
  findIndex p l = None <-> List.find p l = None.
Proof.
  induction l as [|y l IH]; simpl; [done|].
  destruct (p y); [done|].
  destruct (findIndex p l) as [k|]; simpl.
  - split; [discriminate|]. intros H. apply IH in H. discriminate.
  - split; [|done]. intros _. by apply IH.
Qed.

Lemma filter_nil_find {A} (p : A -> bool) (l : list A) :
  List.filter p l = [] -> List.find p l = None.
Proof.
  induction l as [|y l IH]; simpl; [done|].
  destruct (p y); [discriminate | done].
Qed.

(** Removing the first match removes the head of the matches. *)
Lemma filter_delete_findIndex {A} (p : A -> bool) (l : list A) (k : nat) :
  findIndex p l = Some k ->
  List.filter p (delete k l) = List.tl (List.filter p l).
Proof.
  revert k. induction l as [|y l IH]; intros k; simpl; [discriminate|].
  destruct (p y) eqn:Hy.
  - by intros [= <-].
  - destruct (findIndex p l) as [k'|]; simpl; [|discriminate].
    intros [= <-]. simpl. rewrite Hy. by apply IH.
Qed.

(** *** Runs *)

Lemma run_cons (o : task_op) (ops : list task_op) (st : state) :
  run (o :: ops) st
  = (fst (step o st) :: fst (run ops (snd (step o st))),
     snd (run ops (snd (step o st)))).
Proof.
  cbn [run]. destruct (step o st) as [r st']. cbn [fst snd].
  by destruct (run ops st').
Qed.

Lemma run_length (ops : list task_op) (st : state) :
  List.length (fst (run ops st)) = List.length ops.
Proof.
  revert st. induction ops as [|o ops IH]; intros st; [done|].
  rewrite run_cons. simpl. by rewrite IH.
Qed.

Lemma post_task_returned_id (now : Z) (req : request) (st : state) :
  returned_id (fst (post_task now req st))
  = Some (Z.of_nat (List.length (tasks st)) + 1).
Proof. unfold post_task, returned_id. simpl. by rewrite get_insert_eq. Qed.

Lemma post_task_length (now : Z) (req : request) (st : state) :
  List.length (tasks (snd (post_task now req st))) = S (List.length (tasks st)).
Proof. unfold post_task. simpl. rewrite length_app. simpl. lia. Qed.

(** In a run of creates from a registry of [n] tasks, the [k]-th response
    carries the id [n + 1 + k]. *)
Lemma run_creates_returned_id (ops : list task_op) (st : state) (k : nat) (r : response) :
  Forall is_create ops ->
  fst (run ops st) !! k = Some r ->
  returned_id r = Some (Z.of_nat (List.length (tasks st)) + 1 + Z.of_nat k).
Proof.
  intros Hops. revert st k r.
  induction Hops as [|o ops Ho _ IH]; intros st k r; [done|].
  rewrite run_cons.
  destruct o as [now fields| | |]; try done.
  change (step (Create now fields) st)
    with (post_task now (task_request "" fields) st).
  destruct k as [|k]; cbn [fst lookup list_lookup].
  - intros Hr.
    assert (r = fst (post_task now (task_request "" fields) st)) as ->
      by congruence.
    rewrite post_task_returned_id. f_equal. lia.
  - intros Hk. rewrite (IH _ k r Hk), post_task_length. f_equal. lia.
Qed.

(** *** Task ids *)

Lemma post_task_ids (now : Z) (req : request) (st : state) :
  ids (snd (post_task now req st))
  = (ids st ++ [VNum (Z.of_nat (List.length (tasks st)) + 1)])%list.
Proof.
  unfold ids, post_task. simpl. rewrite fmap_app. simpl.
  by rewrite get_insert_eq.
Qed.

(** What does hold of the ids: as long as requests only create, the ids
    appended to a registry of [n] tasks are [n + 1], [n + 2], ... *)
Lemma run_creates_ids (ops : list task_op) (st : state) :
  Forall is_create ops ->
  ids (snd (run ops st))
  = (ids st ++
     ((fun k => VNum (Z.of_nat (List.length (tasks st)) + 1 + Z.of_nat k))
        <$> seq 0 (List.length ops)))%list.
Proof.
  intros Hops. revert st.
  induction Hops as [|o ops Ho _ IH]; intros st.
  - simpl. by rewrite app_nil_r.
  - rewrite run_cons. cbn [snd].
    destruct o as [now fields| | |]; try done.
    change (step (Create now fields) st)
      with (post_task now (task_request "" fields) st).
    rewrite IH, post_task_ids, post_task_length, <- app_assoc.
    f_equal. cbn [List.length seq fmap list_fmap app].
    f_equal; [f_equal; lia|].
    rewrite <- fmap_S_seq, <- list_fmap_compose.
    apply list_fmap_ext. intros _ k _. simpl. f_equal. lia.
Qed.

(** From the empty registry, creates alone give the ids 1, 2, ..., all
    different. *)
Lemma run_creates_ids_NoDup (ops : list task_op) (file : option (list (gmap string value))) :
  Forall is_create ops ->
  NoDup (ids (snd (run ops (initial file)))).
Proof.
  intros Hops. rewrite (run_creates_ids _ _ Hops). simpl.
  apply NoDup_fmap_2; [|apply NoDup_seq].
  intros k1 k2 [= H]. lia.
Qed.

(** C1. The code at the failing input: create, create, delete the first
    task, create again (the clock reads 0, 1 and 2 at the creates). The
    third create answers with id 2, the id of a task that is still in the
    registry; the registry then holds two tasks with id 2, and a fetch of
    id 2 answers with the older one. *)
Theorem id_reused_after_delete :
  let ops := [Create 0 ∅; Create 1 ∅; Delete "1"; Create 2 ∅] in
  let st := snd (run ops (initial None)) in
  status <$> fst (run ops (initial None)) = [201; 201; 204; 201] /\
  returned_id <$> fst (run ops (initial None)) = [Some 1; Some 2; None; Some 2] /\
  ids st = [VNum 2; VNum 2] /\
  (fun task => get task "creationDate") <$> tasks st = [VDate 1; VDate 2] /\
  fst (get_task (Request ∅ "2" ∅) st) = Response 200 (json_of (tasks st !! 0%nat)).
Proof. vm_compute. done. Qed.

(** C2. In a sequence of task creates, starting from any registry, every
    create answers with an id, and that id is strictly greater than the id
    answered by each earlier create of the sequence. *)
Theorem create_ids_strictly_increasing (ops : list task_op) (st : state) (i j : nat) :
  Forall is_create ops ->
  (i < j)%nat ->
  (j < List.length ops)%nat ->
  exists a b : Z,
    (fst (run ops st) !! i) ≫= returned_id = Some a /\
    (fst (run ops st) !! j) ≫= returned_id = Some b /\
    a < b.
Proof.
  intros Hops Hij Hj.
  destruct (lookup_lt_is_Some_2 (fst (run ops st)) i) as [ri Hi];
    [rewrite run_length; lia|].
  destruct (lookup_lt_is_Some_2 (fst (run ops st)) j) as [rj Hrj];
    [rewrite run_length; lia|].
  exists (Z.of_nat (List.length (tasks st)) + 1 + Z.of_nat i),
         (Z.of_nat (List.length (tasks st)) + 1 + Z.of_nat j).
  rewrite Hi, Hrj. simpl.
  rewrite (run_creates_returned_id ops st i ri Hops Hi).
  rewrite (run_creates_returned_id ops st j rj Hops Hrj).
  repeat split; lia.
Qed.

Lemma create_ids_strictly_increasing_witness :
  exists a b : Z,
    (fst (run [Create 0 ∅; Create 5 ∅; Create 9 ∅] (initial None)) !! 0%nat)
      ≫= returned_id = Some a /\
    (fst (run [Create 0 ∅; Create 5 ∅; Create 9 ∅] (initial None)) !! 2%nat)
      ≫= returned_id = Some b /\
    a < b.
Proof.
  apply (create_ids_strictly_increasing
           [Create 0 ∅; Create 5 ∅; Create 9 ∅] (initial None) 0 2).
  - repeat constructor.
  - lia.
  - simpl. lia.
Defined.

(** *** Listing *)

Lemma filter_filter_andb {A} (p q : A -> bool) (l : list A) :
  List.filter q (List.filter p l) = List.filter (fun x => p x && q x) l.
Proof.
  induction l as [|x l IH]; simpl; [done|].
  destruct (p x); simpl; [destruct (q x)|]; by rewrite IH.
Qed.

Lemma filter_all {A} (l : list A) : List.filter (fun _ => true) l = l.
Proof. induction l as [|x l IH]; simpl; by rewrite ?IH. Qed.

(** C3 (amended). For every registry and every query, [GET /tasks] answers
    200 with exactly the tasks that satisfy every clause whose value is
    truthy (a clause with the empty string is no test), in the order of the
    registry, and leaves the state alone; without [assignedTo] and
    [category] it answers with the whole registry. *)
Theorem get_tasks_filters (req : request) (st : state) :
  get_tasks req st
  = (Response 200 (tasks_json (List.filter (matches (query req)) (tasks st))), st)
  /\ get_tasks
       {| body := body req; params_id := params_id req;
          query := delete "assignedTo" (delete "category" (query req)) |} st
     = (Response 200 (tasks_json (tasks st)), st).
Proof.
  split.
  - unfold get_tasks, matches, clause.
    destruct (truthy (get (query req) "assignedTo")),
             (truthy (get (query req) "category")); simpl.
    + by rewrite filter_filter_andb.
    + do 3 f_equal. apply filter_ext. intros t. by rewrite andb_true_r.
    + done.
    + by rewrite filter_all.
  - unfold get_tasks, get. simpl.
    rewrite lookup_delete_eq, lookup_delete_ne, lookup_delete_eq by done.
    done.
Qed.

(** With every supplied value truthy, the handler computes the
    specification's list. *)
Lemma matches_supplied (q : gmap string value) (ts : list (gmap string value)) :
  (forall k v, q !! k = Some v -> truthy v = true) ->
  List.filter (matches q) ts = list_as_specified q ts.
Proof.
  intros Hq. apply filter_ext. intros t.
  unfold matches, clause, supplied_clause, get.
  f_equal.
  - destruct (q !! "assignedTo") as [v|] eqn:E; simpl; [|done].
    by rewrite (Hq _ _ E).
  - destruct (q !! "category") as [v|] eqn:E; simpl; [|done].
    by rewrite (Hq _ _ E).
Qed.

(** C3, as stated, fails: with [?assignedTo=] (the empty string) the
    registry's task assigned to alice is listed, though it does not satisfy
    the clause [assignedTo == ""]. *)
Lemma get_tasks_empty_string_counterexample :
  let st := snd (post_task 0 (Request {[ "assignedTo" := VStr "alice" ]} "" ∅)
                   (initial None)) in
  let req := Request ∅ "" {[ "assignedTo" := VStr "" ]} in
  list_as_specified (query req) (tasks st) = [] /\
  fst (get_tasks req st) = Response 200 (tasks_json (tasks st)) /\
  fst (get_tasks req st)
  <> Response 200 (tasks_json (list_as_specified (query req) (tasks st))).
Proof.
  split; [|split].
  - vm_compute. reflexivity.
  - vm_compute. reflexivity.
  - vm_compute. discriminate.
Qed.

(** C10. An empty-string [assignedTo] or [category] is as good as absent:
    the answer is the one for the query without that parameter, and with
    [assignedTo] the empty string alone the whole registry is listed. *)
Theorem empty_string_filter_ignored (req : request) (st : state) :
  get_tasks {| body := body req; params_id := params_id req;
               query := <[ "assignedTo" := VStr "" ]> (query req) |} st
  = get_tasks {| body := body req; params_id := params_id req;
                 query := delete "assignedTo" (query req) |} st
  /\ get_tasks {| body := body req; params_id := params_id req;
                  query := <[ "category" := VStr "" ]> (query req) |} st
     = get_tasks {| body := body req; params_id := params_id req;
                    query := delete "category" (query req) |} st
  /\ get_tasks {| body := body req; params_id := params_id req;
                  query := {[ "assignedTo" := VStr "" ]} |} st
     = (Response 200 (tasks_json (tasks st)), st).
Proof.
  unfold get_tasks, get. cbn [query]. split; [|split].
  - rewrite lookup_insert_eq, lookup_delete_eq.
    by rewrite lookup_insert_ne, lookup_delete_ne by done.
  - rewrite lookup_insert_eq, lookup_delete_eq.
    by rewrite lookup_insert_ne, lookup_delete_ne by done.
  - by rewrite lookup_singleton_eq, lookup_singleton_ne by done.
Qed.

(** *** Update *)

Lemma find_insert_findIndex {A} (p : A -> bool) (l : list A) (k : nat) (y : A) :
  findIndex p l = Some k ->
  p y = true ->
  List.find p (<[k := y]> l) = Some y.
Proof.
  intros Hk Hy. revert k Hk.
  induction l as [|z l IH]; intros k; simpl; [discriminate|].
  destruct (p z) eqn:Hz.
  - intros [= <-]. simpl. by rewrite Hy.
  - destruct (findIndex p l) as [k'|]; simpl; [|discriminate].
    intros [= <-]. simpl. rewrite Hz. by apply IH.
Qed.

Lemma has_id_insert_ne (taskId : value) (t : gmap string value) (a : string) (x : value) :
  a ≠ "id" -> has_id taskId (<[a := x]> t) = has_id taskId t.
Proof. intros Ha. unfold has_id. by rewrite get_insert_ne. Qed.

(** The update of a task that is found: the first task with the id is
    replaced, in place, by its merge with the request body. *)
Lemma put_task_found (req : request) (st : state) (k : nat) (t : gmap string value) :
  findIndex (has_id (parseInt (params_id req))) (tasks st) = Some k ->
  tasks st !! k = Some t ->
  put_task req st
  = (Response 200 (Json (VObj (spread t (body req)))),
     set_tasks (<[k := spread t (body req)]> (tasks st)) st).
Proof.
  intros Hk Ht. unfold put_task. rewrite Hk, Ht. simpl.
  rewrite list_lookup_insert_eq by (by eapply lookup_lt_Some).
  done.
Qed.

(** C4 (amended). When [GET /task/id] finds the task [t], updating that id
    with the one-field body [{a: x}], [a] other than ["id"], answers 200
    with [t] where [a] is [x]; a following fetch of the same id answers
    with that same task; the fields other than [a] keep their values; the
    registry differs from the old one at the position of [t] only, and the
    users file is untouched. *)
Theorem update_then_fetch (st : state) (id a : string) (x : value)
    (t : gmap string value) (upd fetch : request) :
  List.find (has_id (parseInt id)) (tasks st) = Some t ->
  a ≠ "id" ->
  params_id upd = id ->
  body upd = {[ a := x ]} ->
  params_id fetch = id ->
  let st' := snd (put_task upd st) in
  exists k : nat,
    tasks st !! k = Some t /\
    put_task upd st = (Response 200 (Json (VObj (<[a := x]> t))), st') /\
    get_task fetch st' = (Response 200 (Json (VObj (<[a := x]> t))), st') /\
    get (<[a := x]> t) a = x /\
    (forall b, b ≠ a -> get (<[a := x]> t) b = get t b) /\
    tasks st' = <[k := <[a := x]> t]> (tasks st) /\
    (forall j, j ≠ k -> tasks st' !! j = tasks st !! j) /\
    List.length (tasks st') = List.length (tasks st) /\
    users_file st' = users_file st.
Proof.
  intros Hfind Ha Hupd Hbody Hfetch st'.
  destruct (find_findIndex _ _ _ Hfind) as (k & Hk & Ht).
  exists k. split; [done|].
  assert (Hput : put_task upd st
                 = (Response 200 (Json (VObj (<[a := x]> t))),
                    set_tasks (<[k := <[a := x]> t]> (tasks st)) st)).
  { rewrite (put_task_found upd st k t); [|by rewrite Hupd|done].
    by rewrite Hbody, spread_singleton. }
  assert (Hst' : st' = set_tasks (<[k := <[a := x]> t]> (tasks st)) st).
  { unfold st'. by rewrite Hput. }
  rewrite Hst'. repeat split.
  - done.
  - unfold get_task. rewrite Hfetch. simpl.
    rewrite (find_insert_findIndex _ _ k (<[a := x]> t) Hk); [done|].
    rewrite has_id_insert_ne by done.
    by destruct (findIndex_find _ _ _ Hk) as (t0 & Ht0 & Hp & _); simplify_eq.
  - apply get_insert_eq.
  - intros b Hb. by apply get_insert_ne.
  - intros j Hj. simpl. by apply list_lookup_insert_ne.
  - simpl. apply length_insert.
Qed.

Lemma update_then_fetch_witness :
  let st := snd (post_task 0 (Request {[ "title" := VStr "Sample Task" ]} "" ∅)
                   (initial None)) in
  let upd := Request {[ "status" := VStr "Completed" ]} "1" ∅ in
  let t := default ∅ (tasks st !! 0%nat) in
  exists k : nat,
    tasks st !! k = Some t /\
    put_task upd st
    = (Response 200 (Json (VObj (<["status" := VStr "Completed"]> t))),
       snd (put_task upd st)) /\
    get_task (Request ∅ "1" ∅) (snd (put_task upd st))
    = (Response 200 (Json (VObj (<["status" := VStr "Completed"]> t))),
       snd (put_task upd st)) /\
    get (<["status" := VStr "Completed"]> t) "status" = VStr "Completed" /\
    (forall b, b ≠ "status" ->
       get (<["status" := VStr "Completed"]> t) b = get t b) /\
    tasks (snd (put_task upd st))
    = <[k := <["status" := VStr "Completed"]> t]> (tasks st) /\
    (forall j, j ≠ k -> tasks (snd (put_task upd st)) !! j = tasks st !! j) /\
    List.length (tasks (snd (put_task upd st))) = List.length (tasks st) /\
    users_file (snd (put_task upd st)) = users_file st.
Proof.
  intros st upd t.
  apply (update_then_fetch st "1" "status" (VStr "Completed") t upd
           (Request ∅ "1" ∅)).
  - vm_compute. reflexivity.
  - discriminate.
  - reflexivity.
  - reflexivity.
  - reflexivity.
Defined.

(** C4, as stated, fails for the field ["id"]: after [PUT /task/1] with
    [{id: 2}] the task is no longer found under id 1. *)
Lemma update_id_counterexample :
  let st := snd (post_task 0 (Request ∅ "" ∅) (initial None)) in
  let upd := Request {[ "id" := VNum 2 ]} "1" ∅ in
  let t := default ∅ (tasks st !! 0%nat) in
  List.find (has_id (parseInt "1")) (tasks st) = Some t /\
  fst (put_task upd st) = Response 200 (Json (VObj (<["id" := VNum 2]> t))) /\
  fst (get_task (Request ∅ "1" ∅) (snd (put_task upd st)))
  = Response 404 (message "Task not found") /\
  fst (get_task (Request ∅ "1" ∅) (snd (put_task upd st)))
  <> Response 200 (Json (VObj (<["id" := VNum 2]> t))).
Proof.
  repeat split; try (vm_compute; reflexivity).
  vm_compute. discriminate.
Qed.

(** *** Delete *)

Lemma find_head_filter {A} (p : A -> bool) (l : list A) :
  List.find p l = head (List.filter p l).
Proof.
  induction l as [|y l IH]; simpl; [done|].
  by destruct (p y).
Qed.

Lemma delete_task_found (req : request) (st : state) (k : nat) :
  findIndex (has_id (parseInt (params_id req))) (tasks st) = Some k ->
  delete_task req st = (Response 204 NoBody, set_tasks (delete k (tasks st)) st).
Proof. intros Hk. unfold delete_task. by rewrite Hk. Qed.

Lemma delete_task_not_found (req : request) (st : state) :
  List.find (has_id (parseInt (params_id req))) (tasks st) = None ->
  delete_task req st = (Response 404 (message "Task not found"), st).
Proof.
  intros H. apply findIndex_None in H. unfold delete_task. by rewrite H.
Qed.

Lemma get_task_not_found (req : request) (st : state) :
  List.find (has_id (parseInt (params_id req))) (tasks st) = None ->
  get_task req st = (Response 404 (message "Task not found"), st).
Proof. intros H. unfold get_task. by rewrite H. Qed.

(** C9 (amended). When exactly one task [t] of the registry has the id,
    [DELETE /task/id] answers 204 with no body and removes [t] (and nothing
    else); after it no task has the id, a fetch of the id answers 404, and
    a second delete answers 404 and leaves the state as it is. *)
Theorem delete_then_gone (st : state) (id : string) (t : gmap string value)
    (del fetch : request) :
  List.filter (has_id (parseInt id)) (tasks st) = [t] ->
  params_id del = id ->
  params_id fetch = id ->
  let st' := snd (delete_task del st) in
  exists k : nat,
    tasks st !! k = Some t /\
    delete_task del st = (Response 204 NoBody, st') /\
    tasks st' = delete k (tasks st) /\
    users_file st' = users_file st /\
    List.filter (has_id (parseInt id)) (tasks st') = [] /\
    get_task fetch st' = (Response 404 (message "Task not found"), st') /\
    delete_task del st' = (Response 404 (message "Task not found"), st').
Proof.
  intros Hone Hdel Hfetch st'.
  assert (Hfind : List.find (has_id (parseInt id)) (tasks st) = Some t)
    by (by rewrite find_head_filter, Hone).
  destruct (find_findIndex _ _ _ Hfind) as (k & Hk & Ht).
  assert (Hdelete : delete_task del st
                    = (Response 204 NoBody, set_tasks (delete k (tasks st)) st))
    by (apply delete_task_found; by rewrite Hdel).
  assert (Hst' : st' = set_tasks (delete k (tasks st)) st)
    by (unfold st'; by rewrite Hdelete).
  assert (Hgone : List.filter (has_id (parseInt id)) (tasks st') = []).
  { rewrite Hst'. simpl. by rewrite (filter_delete_findIndex _ _ _ Hk), Hone. }
  exists k. split; [done|]. split; [by rewrite Hst'|].
  split; [by rewrite Hst'|]. split; [by rewrite Hst'|].
  split; [done|]. split.
  - apply get_task_not_found. rewrite Hfetch. by apply filter_nil_find.
  - apply delete_task_not_found. rewrite Hdel. by apply filter_nil_find.
Qed.

Lemma delete_then_gone_witness :
  let st := snd (run [Create 0 ∅; Create 1 ∅] (initial None)) in
  let del := Request ∅ "1" ∅ in
  let t := default ∅ (tasks st !! 0%nat) in
  exists k : nat,
    tasks st !! k = Some t /\
    delete_task del st = (Response 204 NoBody, snd (delete_task del st)) /\
    tasks (snd (delete_task del st)) = delete k (tasks st) /\
    users_file (snd (delete_task del st)) = users_file st /\
    List.filter (has_id (parseInt "1")) (tasks (snd (delete_task del st))) = [] /\
    get_task del (snd (delete_task del st))
    = (Response 404 (message "Task not found"), snd (delete_task del st)) /\
    delete_task del (snd (delete_task del st))
    = (Response 404 (message "Task not found"), snd (delete_task del st)).
Proof.
  intros st del t.
  apply (delete_then_gone st "1" t del del).
  - vm_compute. reflexivity.
  - reflexivity.
  - reflexivity.
Defined.

(** C9, as stated, fails on a registry in which two tasks share the id,
    here after [PUT /task/2] with [{id: 1}]: the delete of id 1 answers
    204, and the fetch of id 1 that follows still answers 200, with the
    other task; a second delete then answers 204 again. *)
Lemma delete_shared_id_counterexample :
  let st := snd (run [Create 0 ∅; Create 1 ∅; Update "2" {[ "id" := VNum 1 ]}]
                   (initial None)) in
  ids st = [VNum 1; VNum 1] /\
  status <$> fst (run [Delete "1"; Fetch "1"; Delete "1"] st) = [204; 200; 204] /\
  status (fst (get_task (Request ∅ "1" ∅)
                 (snd (delete_task (Request ∅ "1" ∅) st)))) <> 404.
Proof.
  split; [|split].
  - vm_compute. reflexivity.
  - vm_compute. reflexivity.
  - vm_compute. discriminate.
Qed.

(** *** Credential store *)

Lemma find_app_None {A} (p : A -> bool) (l l' : list A) :
  List.find p l = None -> List.find p (l ++ l') = List.find p l'.
Proof.
  induction l as [|y l IH]; simpl; [done|].
  destruct (p y); [discriminate | done].
Qed.

Lemma existsb_find_None {A} (p : A -> bool) (l : list A) :
  List.find p l = None -> existsb p l = false.
Proof.
  induction l as [|y l IH]; simpl; [done|].
  destruct (p y); [discriminate | done].
Qed.

Lemma has_username_str (u : string) (user : gmap string value) :
  has_username (VStr u) user = true <-> get user "username" = VStr u.
Proof. unfold has_username. apply strict_eq_str. Qed.

(** A store without the username: neither [some] nor [find] hits. *)
Lemma unused_username_find (u : string) (users : list (gmap string value)) :
  Forall (fun user => get user "username" ≠ VStr u) users ->
  List.find (has_username (VStr u)) users = None.
Proof.
  induction 1 as [|user users Hu _ IH]; simpl; [done|].
  destruct (has_username (VStr u) user) eqn:E; [|done].
  by apply has_username_str in E.
Qed.

(** A store with the username: [some] answers true. *)
Lemma used_username_existsb (u : string) (user : gmap string value)
    (users : list (gmap string value)) :
  user ∈ users ->
  get user "username" = VStr u ->
  existsb (has_username (VStr u)) users = true.
Proof.
  intros Hin Hu. apply existsb_exists. exists user. split.
  - by apply list_elem_of_In.
  - by apply has_username_str.
Qed.

Section Credentials.
Context {salt : Type}.
Variable hashSync : string -> Z -> salt -> string.
Variable compareSync : string -> string -> bool.

(** A login whose password verifies against the first record with the
    username. *)
Lemma post_login_verified (req : request) (st : state) (u p h : string)
    (user : gmap string value) :
  get (body req) "username" = VStr u ->
  get (body req) "password" = VStr p ->
  truthy (VStr u) = true ->
  truthy (VStr p) = true ->
  List.find (has_username (VStr u)) (readUsers st) = Some user ->
  get user "password" = VStr h ->
  compareSync p h = true ->
  post_login compareSync req st = (Response 200 (message "Login successful"), st).
Proof.
  intros Hu Hp Htu Htp Hfind Hh Hok.
  unfold post_login. rewrite Hu, Hp, Htu, Htp. simpl negb. simpl orb. cbv iota.
  rewrite Hfind, Hh. simpl. by rewrite Hok.
Qed.

(** C5. On a store that has no record with the username [u] (non-empty, as
    usernames are), registering [u] with a non-empty password [p] answers
    201 and appends the record of [u] to the users file; a login with [u]
    and [p] on the resulting store answers 200. The fact used of bcrypt is
    that the hash it made of [p] verifies against [p]. *)
Theorem register_then_login (s : salt) (reg login : request) (st : state)
    (u p : string) :
  get (body reg) "username" = VStr u ->
  get (body reg) "password" = VStr p ->
  get (body login) "username" = VStr u ->
  get (body login) "password" = VStr p ->
  u ≠ "" ->
  p ≠ "" ->
  Forall (fun user => get user "username" ≠ VStr u) (readUsers st) ->
  compareSync p (hashSync p 10 s) = true ->
  let st' := snd (post_register hashSync s reg st) in
  post_register hashSync s reg st
  = (Response 201 (message "User registered successfully"), st') /\
  users_file st'
  = Some (readUsers st ++
          [ <["username" := VStr u]>
              (<["password" := VStr (hashSync p 10 s)]> ∅) ])%list /\
  tasks st' = tasks st /\
  post_login compareSync login st'
  = (Response 200 (message "Login successful"), st').
Proof.
  intros Hru Hrp Hlu Hlp Hu Hp Hunused Hbcrypt st'.
  apply truthy_str in Hu. apply truthy_str in Hp.
  pose proof (unused_username_find u _ Hunused) as Hnone.
  assert (Hreg : post_register hashSync s reg st
                 = (Response 201 (message "User registered successfully"),
                    writeUsers
                      (readUsers st ++
                       [ <["username" := VStr u]>
                           (<["password" := VStr (hashSync p 10 s)]> ∅) ]) st)).
  { unfold post_register. rewrite Hru, Hrp, Hu, Hp. simpl negb. simpl orb.
    cbv iota. by rewrite (existsb_find_None _ _ Hnone). }
  assert (Hst' : st' = writeUsers
                      (readUsers st ++
                       [ <["username" := VStr u]>
                           (<["password" := VStr (hashSync p 10 s)]> ∅) ]) st)
    by (unfold st'; by rewrite Hreg).
  split; [by rewrite Hst'|]. split; [by rewrite Hst'|]. split; [by rewrite Hst'|].
  apply (post_login_verified login st' u p (hashSync p 10 s)
           (<["username" := VStr u]> (<["password" := VStr (hashSync p 10 s)]> ∅)));
    [done | done | done | done | | done | done].
  rewrite Hst'. change (readUsers (writeUsers ?us st)) with us.
  rewrite (find_app_None _ _ _ Hnone). simpl.
  unfold has_username. rewrite get_insert_eq. simpl.
  by rewrite String.eqb_refl.
Qed.


(** C7 (amended). On a store that has a record with the username [u],
    registering [u] with any non-empty password answers 409 and leaves the
    users file and the registry as they are. *)
Theorem register_existing_conflict (s : salt) (req : request) (st : state)
    (u p : string) (user : gmap string value) :
  get (body req) "username" = VStr u ->
  get (body req) "password" = VStr p ->
  u ≠ "" ->
  p ≠ "" ->
  user ∈ readUsers st ->
  get user "username" = VStr u ->
  post_register hashSync s req st
  = (Response 409 (message "Username already exists"), st).
Proof.
  intros Hru Hrp Hu Hp Hin Huser.
  apply truthy_str in Hu. apply truthy_str in Hp.
  unfold post_register. rewrite Hru, Hrp, Hu, Hp. simpl negb. simpl orb.
  cbv iota. by rewrite (used_username_existsb u user _ Hin Huser).
Qed.

(** The presence check of both handlers: a falsy [username] or [password]
    (absent, [null], the empty string, ...) is answered with 400 before the
    users file is read. *)
Lemma falsy_field_bad_request (s : salt) (req : request) (st : state) :
  truthy (get (body req) "username") = false \/
  truthy (get (body req) "password") = false ->
  post_register hashSync s req st
  = (Response 400 (message "Username and password are required"), st) /\
  post_login compareSync req st
  = (Response 400 (message "Username and password are required"), st).
Proof.
  intros Hfalsy. unfold post_register, post_login.
  destruct Hfalsy as [H|H]; rewrite H; simpl.
  - done.
  - by rewrite !orb_true_r.
Qed.

(** C8. A register or login request whose body has no [username] or no
    [password] answers 400, and the state (users file and registry) is
    the one before. *)
Theorem missing_field_bad_request (s : salt) (req : request) (st : state) :
  body req !! "username" = None \/ body req !! "password" = None ->
  post_register hashSync s req st
  = (Response 400 (message "Username and password are required"), st) /\
  post_login compareSync req st
  = (Response 400 (message "Username and password are required"), st).
Proof.
  intros Hmissing. apply falsy_field_bad_request.
  destruct Hmissing as [H|H]; [left|right]; by rewrite (get_absent _ _ H).
Qed.

End Credentials.

Lemma register_then_login_witness :
  let st := initial (Some [ <["username" := VStr "testUser"]>
                              (<["password" := VStr "salttestPassword"]> ∅) ]) in
  let req := Request (<["username" := VStr "newUser"]>
                        (<["password" := VStr "newPassword"]> ∅)) "" ∅ in
  let st' := snd (post_register sample_hashSync "pepper" req st) in
  post_register sample_hashSync "pepper" req st
  = (Response 201 (message "User registered successfully"), st') /\
  users_file st'
  = Some (readUsers st ++
          [ <["username" := VStr "newUser"]>
              (<["password" := VStr (sample_hashSync "newPassword" 10 "pepper")]> ∅) ])%list /\
  tasks st' = tasks st /\
  post_login sample_compareSync req st'
  = (Response 200 (message "Login successful"), st').
Proof.
  intros st req.
  apply (register_then_login sample_hashSync sample_compareSync "pepper"
           req req st "newUser" "newPassword").
  - vm_compute. reflexivity.
  - vm_compute. reflexivity.
  - vm_compute. reflexivity.
  - vm_compute. reflexivity.
  - discriminate.
  - discriminate.
  - repeat constructor. vm_compute. discriminate.
  - vm_compute. reflexivity.
Defined.



Lemma register_existing_conflict_witness :
  let user : gmap string value :=
    <["username" := VStr "testUser"]>
      (<["password" := VStr (sample_hashSync "testPassword" 10 "salt")]> ∅) in
  let st := initial (Some [user]) in
  let req := Request (<["username" := VStr "testUser"]>
                        (<["password" := VStr "testPassword"]> ∅)) "" ∅ in
  post_register sample_hashSync "pepper" req st
  = (Response 409 (message "Username already exists"), st).
Proof.
  intros user st req.
  apply (register_existing_conflict sample_hashSync "pepper" req st
           "testUser" "testPassword" user).
  - vm_compute. reflexivity.
  - vm_compute. reflexivity.
  - discriminate.
  - discriminate.
  - simpl. apply list_elem_of_here.
  - vm_compute. reflexivity.
Defined.

(** C7, as stated, fails for the empty password: the presence check comes
    first and answers 400, though the username is taken. *)
Lemma register_existing_empty_password_counterexample :
  let user : gmap string value :=
    <["username" := VStr "testUser"]>
      (<["password" := VStr (sample_hashSync "testPassword" 10 "salt")]> ∅) in
  let st := initial (Some [user]) in
  let req := Request (<["username" := VStr "testUser"]>
                        (<["password" := VStr ""]> ∅)) "" ∅ in
  existsb (has_username (VStr "testUser")) (readUsers st) = true /\
  post_register sample_hashSync "pepper" req st
  = (Response 400 (message "Username and password are required"), st) /\
  status (fst (post_register sample_hashSync "pepper" req st)) <> 409.
Proof.
  split; [|split].
  - vm_compute. reflexivity.
  - vm_compute. reflexivity.
  - vm_compute. discriminate.
Qed.

Lemma missing_field_bad_request_witness :
  let st := initial None in
  let req := Request {[ "invalidKey" := VStr "invalidValue" ]} "" ∅ in
  post_register sample_hashSync "pepper" req st
  = (Response 400 (message "Username and password are required"), st) /\
  post_login sample_compareSync req st
  = (Response 400 (message "Username and password are required"), st).
Proof.
  intros st req.
  apply (missing_field_bad_request sample_hashSync sample_compareSync "pepper" req st).
  left. vm_compute. reflexivity.
Defined.

(* ===================================================================== *)
(** ** Further properties of the handlers *)
(* ===================================================================== *)

(** *** Lists *)

Lemma find_app_Some {A} (p : A -> bool) (l l' : list A) (x : A) :
  List.find p l = Some x -> List.find p (l ++ l') = Some x.
Proof.
  induction l as [|y l IH]; simpl; [discriminate|].
  by destruct (p y).
Qed.

(** *** Ids in paths: [parseInt] reads back what the template printed *)

Lemma digit_value_digit_char (d : Z) :
  0 <= d < 10 -> digit_value (digit_char d) = Some d.
Proof.
  intros Hd.
  assert (d = 0 \/ d = 1 \/ d = 2 \/ d = 3 \/ d = 4 \/ d = 5 \/ d = 6 \/ d = 7
          \/ d = 8 \/ d = 9) as H by lia.
  repeat (destruct H as [-> | H]; [reflexivity|]). by subst.
Qed.

Lemma is_decimal_digit_char (d : Z) :
  0 <= d < 10 -> is_decimal_digit (digit_char d) = true.
Proof.
  intros Hd. unfold is_decimal_digit. rewrite digit_value_digit_char by done.
  apply Z.ltb_lt. lia.
Qed.

Lemma parse_digits_step (d : Z) (s : string) (acc : option Z) :
  0 <= d < 10 ->
  parse_digits 10 (String (digit_char d) s) acc
  = parse_digits 10 s (Some (default 0 acc * 10 + d)).
Proof.
  intros Hd. cbn [parse_digits]. rewrite digit_value_digit_char by done.
  by destruct (Z.ltb_spec d 10); [|lia].
Qed.

(** The digits printed for [n] parse back to [n], whatever follows. *)
Lemma parse_decimal_digits (fuel : nat) (n : Z) (rest : string) :
  0 <= n < 2 ^ Z.of_nat (S fuel) ->
  parse_digits 10 (decimal_digits (S fuel) n rest) None
  = parse_digits 10 rest (Some n).
Proof.
  revert n rest. induction fuel as [|fuel IH]; intros n rest Hn.
  - cbn [decimal_digits]. change (2 ^ Z.of_nat 1) with 2 in Hn.
    destruct (Z.ltb_spec n 10); [|lia].
    rewrite parse_digits_step by (apply Z.mod_pos_bound; lia).
    simpl. by rewrite Z.mod_small by lia.
  - change (decimal_digits (S (S fuel)) n rest)
      with (if n <? 10 then String (digit_char (n mod 10)) rest
            else decimal_digits (S fuel) (n / 10)
                   (String (digit_char (n mod 10)) rest)).
    destruct (Z.ltb_spec n 10).
    + rewrite parse_digits_step by (apply Z.mod_pos_bound; lia).
      simpl. by rewrite Z.mod_small by lia.
    + rewrite IH.
      * rewrite parse_digits_step by (apply Z.mod_pos_bound; lia).
        simpl. do 2 f_equal. rewrite (Z.div_mod n 10) at 3 by lia. lia.
      * split; [apply Z.div_pos; lia|].
        apply Z.div_lt_upper_bound; [lia|].
        rewrite Nat2Z.inj_succ, Z.pow_succ_r in Hn by lia. lia.
Qed.

Lemma decimal_digits_first (fuel : nat) (n : Z) (rest : string) :
  no_letter_first rest = true ->
  exists c s, decimal_digits (S fuel) n rest = String c s
              /\ is_decimal_digit c = true /\ no_letter_first s = true.
Proof.
  revert n rest. induction fuel as [|fuel IH]; intros n rest Hrest.
  - cbn [decimal_digits]. destruct (n <? 10);
      (eexists _, _; split; [reflexivity|]; split;
       [apply is_decimal_digit_char, Z.mod_pos_bound; lia | done]).
  - change (decimal_digits (S (S fuel)) n rest)
      with (if n <? 10 then String (digit_char (n mod 10)) rest
            else decimal_digits (S fuel) (n / 10)
                   (String (digit_char (n mod 10)) rest)).
    destruct (n <? 10).
    + eexists _, _. split; [reflexivity|]. split;
        [apply is_decimal_digit_char, Z.mod_pos_bound; lia | done].
    + apply IH. cbn [no_letter_first].
      rewrite digit_value_digit_char by (apply Z.mod_pos_bound; lia).
      apply Z.ltb_lt. apply Z.mod_pos_bound. lia.
Qed.

Ltac each_ascii c :=
  let b0 := fresh in let b1 := fresh in let b2 := fresh in let b3 := fresh in
  let b4 := fresh in let b5 := fresh in let b6 := fresh in let b7 := fresh in
  destruct c as [b0 b1 b2 b3 b4 b5 b6 b7];
  destruct b0, b1, b2, b3, b4, b5, b6, b7.

(** On a text that starts with a decimal digit, [parseInt] neither trims,
    nor reads a sign, nor switches to radix 16 (the second character is
    not a letter). *)
Lemma parseInt_decimal (c : ascii) (s : string) :
  is_decimal_digit c = true ->
  no_letter_first s = true ->
  parseInt (String c s)
  = match parse_digits 10 (String c s) None with
    | Some n => VNum n
    | None => VNaN
    end.
Proof.
  intros Hc Hs. unfold parseInt. cbn [trim_start].
  each_ascii c; try (vm_compute in Hc; discriminate Hc); clear Hc;
    (match goal with
     | |- context [is_white_space ?a] => change (is_white_space a) with false
     end);
    cbv beta iota zeta;
    try (destruct (parse_digits 10 _ None) as [n|]; [f_equal; lia | done]).
  destruct s as [|c' s]; [reflexivity|].
  each_ascii c'; try (vm_compute in Hs; discriminate Hs); clear Hs;
    cbv beta iota zeta;
    (destruct (parse_digits 10 _ None) as [n|]; [f_equal; lia | done]).
Qed.

Lemma other_first_no_letter (rest : string) :
  other_first rest = true -> no_letter_first rest = true.
Proof.
  destruct rest as [|c rest]; simpl; [done|].
  by destruct (digit_value c).
Qed.

Lemma parse_digits_stops (rest : string) (acc : option Z) :
  other_first rest = true -> parse_digits 10 rest acc = acc.
Proof.
  destruct rest as [|c rest]; simpl; [done|].
  by destruct (digit_value c).
Qed.

(** [parseInt] of the digits of a non-negative [n], followed by anything
    that does not start with a digit or a letter, is [n]. *)
Lemma parseInt_digits_then (n : Z) (rest : string) :
  0 <= n ->
  other_first rest = true ->
  parseInt (digits_then n rest) = VNum n.
Proof.
  intros Hn Hrest. unfold digits_then.
  destruct (decimal_digits_first (Z.to_nat (Z.log2 n)) n rest)
    as (c & s & Hcs & Hc & Hs); [by apply other_first_no_letter|].
  rewrite Hcs, parseInt_decimal, <- Hcs by done.
  rewrite parse_decimal_digits; [by rewrite parse_digits_stops|].
  split; [done|].
  rewrite Nat2Z.inj_succ, Z2Nat.id by apply Z.log2_nonneg.
  destruct (Z.eq_dec n 0) as [->|]; [done|].
  apply Z.log2_spec. lia.
Qed.

Lemma number_to_string_digits (n : Z) :
  0 <= n -> number_to_string n = digits_then n "".
Proof.
  intros Hn. unfold number_to_string, digits_then.
  by destruct (Z.ltb_spec n 0); [lia|].
Qed.

Lemma parseInt_number_to_string (n : Z) :
  0 <= n -> parseInt (number_to_string n) = VNum n.
Proof.
  intros Hn. rewrite number_to_string_digits by done.
  by apply parseInt_digits_then.
Qed.

(** *** Create, then address the task by the id of the response *)

Lemma has_id_num (n : Z) (task : gmap string value) :
  has_id (VNum n) task = true <-> get task "id" = VNum n.
Proof. unfold has_id. apply strict_eq_num. Qed.

Lemma post_task_state (now : Z) (req : request) (st : state) :
  exists task,
    post_task now req st
    = (Response 201 (Json (VObj task)), set_tasks (tasks st ++ [task]) st)
    /\ get task "id" = VNum (Z.of_nat (List.length (tasks st)) + 1).
Proof.
  eexists. split; [reflexivity|]. by rewrite get_insert_eq.
Qed.

(** X1. When no task of the registry holds the id [tasks.length + 1], a
    create followed by [GET /task/${id}], with the id of the create's
    response, answers 200 with the body the create answered with. *)
Theorem create_then_fetch (now : Z) (create fetch : request) (st : state) :
  List.find (has_id (VNum (Z.of_nat (List.length (tasks st)) + 1))) (tasks st)
  = None ->
  params_id fetch = template (returned_id (fst (post_task now create st))) ->
  get_task fetch (snd (post_task now create st))
  = (Response 200 (sent (fst (post_task now create st))),
     snd (post_task now create st)).
Proof.
  intros Hfree Hpath.
  rewrite post_task_returned_id in Hpath. cbn [template] in Hpath.
  destruct (post_task_state now create st) as (task & -> & Hid).
  cbn [fst snd sent]. unfold get_task. rewrite Hpath.
  rewrite parseInt_number_to_string by lia.
  cbn [tasks set_tasks]. rewrite (find_app_None _ _ _ Hfree).
  cbn [List.find]. by rewrite (proj2 (has_id_num _ _) Hid).
Qed.

Lemma create_then_fetch_witness :
  get_task (Request ∅ "1" ∅)
    (snd (post_task 7 (Request {[ "title" := VStr "Sample Task" ]} "" ∅) (initial None)))
  = (Response 200
       (sent (fst (post_task 7 (Request {[ "title" := VStr "Sample Task" ]} "" ∅)
                     (initial None)))),
     snd (post_task 7 (Request {[ "title" := VStr "Sample Task" ]} "" ∅) (initial None))).
Proof.
  apply (create_then_fetch 7 (Request {[ "title" := VStr "Sample Task" ]} "" ∅)
           (Request ∅ "1" ∅) (initial None)).
  - reflexivity.
  - vm_compute. reflexivity.
Defined.

(** X2. When a task of the registry already holds the id
    [tasks.length + 1], the created task cannot be fetched by the id it
    was given: [GET /task/${id}] answers with the older task. *)
Theorem create_shadowed (now : Z) (create fetch : request) (st : state)
    (older : gmap string value) :
  List.find (has_id (VNum (Z.of_nat (List.length (tasks st)) + 1))) (tasks st)
  = Some older ->
  params_id fetch = template (returned_id (fst (post_task now create st))) ->
  get_task fetch (snd (post_task now create st))
  = (Response 200 (Json (VObj older)), snd (post_task now create st)).
Proof.
  intros Hheld Hpath.
  rewrite post_task_returned_id in Hpath. cbn [template] in Hpath.
  destruct (post_task_state now create st) as (task & -> & Hid).
  cbn [fst snd]. unfold get_task. rewrite Hpath.
  rewrite parseInt_number_to_string by lia.
  cbn [tasks set_tasks].
  by rewrite (find_app_Some _ _ _ _ Hheld).
Qed.

Lemma create_shadowed_witness :
  let st := snd (run [Create 0 ∅; Create 1 ∅; Delete "1"] (initial None)) in
  get_task (Request ∅ "2" ∅) (snd (post_task 2 (Request ∅ "" ∅) st))
  = (Response 200 (Json (VObj (default ∅ (tasks st !! 0%nat)))),
     snd (post_task 2 (Request ∅ "" ∅) st)).
Proof.
  intros st.
  apply (create_shadowed 2 (Request ∅ "" ∅) (Request ∅ "2" ∅) st).
  - vm_compute. reflexivity.
  - vm_compute. reflexivity.
Defined.

(** *** The three routes on [/task/:id] *)

Lemma findIndex_insert_same {A} (p : A -> bool) (l : list A) (k : nat) (y : A) :
  findIndex p l = Some k ->
  p y = true ->
  findIndex p (<[k := y]> l) = Some k.
Proof.
  intros Hk Hy. revert k Hk.
  induction l as [|z l IH]; intros k; simpl; [discriminate|].
  destruct (p z) eqn:Hz.
  - intros [= <-]. simpl. by rewrite Hy.
  - destruct (findIndex p l) as [k'|] eqn:E; simpl; [|discriminate].
    intros [= <-]. simpl. by rewrite Hz, (IH k' eq_refl).
Qed.

Lemma findIndex_split {A} (p : A -> bool) (l : list A) (k : nat) :
  findIndex p l = Some k ->
  exists before t after,
    l = (before ++ t :: after)%list /\
    p t = true /\
    Forall (fun x => p x = false) before /\
    delete k l = (before ++ after)%list.
Proof.
  revert k. induction l as [|z l IH]; intros k; simpl; [discriminate|].
  destruct (p z) eqn:Hz.
  - intros [= <-]. by exists [], z, l.
  - destruct (findIndex p l) as [k'|] eqn:E; simpl; [|discriminate].
    intros [= <-]. destruct (IH k' eq_refl) as (b & t & a & -> & Ht & Hb & Hd).
    exists (z :: b), t, a. repeat split; try done.
    + by constructor.
    + simpl. by rewrite Hd.
Qed.

(** X3. The three routes agree on whether the id names a task: either
    [GET] and [PUT] answer 200 and [DELETE] answers 204, or all three
    answer 404. *)
Theorem id_routes_agree (req : request) (st : state) :
  (status (fst (get_task req st)) = 200 /\
   status (fst (put_task req st)) = 200 /\
   status (fst (delete_task req st)) = 204)
  \/
  (status (fst (get_task req st)) = 404 /\
   status (fst (put_task req st)) = 404 /\
   status (fst (delete_task req st)) = 404).
Proof.
  unfold get_task, put_task, delete_task.
  destruct (findIndex (has_id (parseInt (params_id req))) (tasks st))
    as [k|] eqn:Hk.
  - left. by destruct (findIndex_find _ _ _ Hk) as (t & _ & _ & ->).
  - right. by rewrite (proj1 (findIndex_None _ _) Hk).
Qed.

(** X4. A path parameter in which [parseInt] finds no number names no
    task: [GET], [PUT] and [DELETE] answer 404 and change nothing. *)
Theorem not_a_number_not_found (req : request) (st : state) :
  parseInt (params_id req) = VNaN ->
  get_task req st = (Response 404 (message "Task not found"), st) /\
  put_task req st = (Response 404 (message "Task not found"), st) /\
  delete_task req st = (Response 404 (message "Task not found"), st).
Proof.
  intros Hnan.
  assert (Hnone : List.find (has_id (parseInt (params_id req))) (tasks st) = None).
  { rewrite Hnan. induction (tasks st) as [|t l IH]; simpl; [done|].
    unfold has_id at 1. by destruct (get t "id"). }
  split; [by apply get_task_not_found|].
  split; [|by apply delete_task_not_found].
  apply findIndex_None in Hnone. unfold put_task. by rewrite Hnone.
Qed.

Lemma not_a_number_not_found_witness :
  let st := snd (run [Create 0 ∅] (initial None)) in
  get_task (Request ∅ "abc" ∅) st = (Response 404 (message "Task not found"), st) /\
  put_task (Request ∅ "abc" ∅) st = (Response 404 (message "Task not found"), st) /\
  delete_task (Request ∅ "abc" ∅) st = (Response 404 (message "Task not found"), st).
Proof.
  intros st. apply (not_a_number_not_found (Request ∅ "abc" ∅) st).
  vm_compute. reflexivity.
Defined.

(** X5. Whatever follows the digits of the id in the path is ignored, as
    long as it does not start with a digit or a letter: [/task/12.5] and
    [/task/12-x] are answered as [/task/12]. *)
Theorem id_suffix_ignored (n : Z) (rest : string) (b q : gmap string value)
    (st : state) :
  0 <= n ->
  other_first rest = true ->
  get_task (Request b (digits_then n rest) q) st
  = get_task (Request b (number_to_string n) q) st /\
  put_task (Request b (digits_then n rest) q) st
  = put_task (Request b (number_to_string n) q) st /\
  delete_task (Request b (digits_then n rest) q) st
  = delete_task (Request b (number_to_string n) q) st.
Proof.
  intros Hn Hrest. unfold get_task, put_task, delete_task. cbn [params_id body].
  by rewrite parseInt_digits_then, parseInt_number_to_string.
Qed.

Lemma id_suffix_ignored_witness :
  let st := snd (run [Create 0 ∅; Create 1 ∅] (initial None)) in
  get_task (Request ∅ (digits_then 2 ".5") ∅) st
  = get_task (Request ∅ (number_to_string 2) ∅) st /\
  put_task (Request ∅ (digits_then 2 ".5") ∅) st
  = put_task (Request ∅ (number_to_string 2) ∅) st /\
  delete_task (Request ∅ (digits_then 2 ".5") ∅) st
  = delete_task (Request ∅ (number_to_string 2) ∅) st.
Proof.
  intros st. apply (id_suffix_ignored 2 ".5" ∅ ∅ st).
  - lia.
  - vm_compute. reflexivity.
Defined.

(** X6. [PUT] with an empty body changes nothing and answers as [GET]
    does: 200 with the stored task, or 404. *)
Theorem put_empty_body (id : string) (q : gmap string value) (st : state) :
  put_task (Request ∅ id q) st = get_task (Request ∅ id q) st.
Proof.
  unfold put_task, get_task. cbn [params_id body].
  destruct (findIndex (has_id (parseInt id)) (tasks st)) as [k|] eqn:Hk.
  - destruct (findIndex_find _ _ _ Hk) as (t & Ht & _ & ->).
    rewrite Ht. cbn [spread_source default]. unfold spread.
    rewrite (left_id_L ∅ (∪)). rewrite list_insert_id by done.
    rewrite Ht. simpl. by destruct st.
  - by rewrite (proj1 (findIndex_None _ _) Hk).
Qed.

(** X7. [PUT] is idempotent when the body carries no [id]: sent a second
    time, the request gets the same answer and leaves the state the first
    one left. *)
Theorem put_idempotent (upd : request) (st : state) :
  body upd !! "id" = None ->
  put_task upd (snd (put_task upd st)) = put_task upd st.
Proof.
  intros Hnoid.
  destruct (findIndex (has_id (parseInt (params_id upd))) (tasks st))
    as [k|] eqn:Hk.
  - destruct (findIndex_find _ _ _ Hk) as (t & Ht & Hp & _).
    rewrite (put_task_found upd st k t Hk Ht). cbn [snd].
    assert (Hp' : has_id (parseInt (params_id upd)) (spread t (body upd)) = true).
    { unfold has_id, get, spread in *. by rewrite lookup_union_r. }
    rewrite (put_task_found upd _ k (spread t (body upd))).
    + cbn [tasks set_tasks]. rewrite list_insert_insert_eq.
      unfold spread. by rewrite (assoc_L (∪)), (idemp_L (∪)).
    + cbn [tasks set_tasks]. by apply findIndex_insert_same.
    + cbn [tasks set_tasks]. apply list_lookup_insert_eq.
      by eapply lookup_lt_Some.
  - unfold put_task. rewrite Hk. cbn [snd]. by rewrite Hk.
Qed.

Lemma put_idempotent_witness :
  let st := snd (run [Create 0 ∅] (initial None)) in
  let upd := Request {[ "status" := VStr "Completed" ]} "1" ∅ in
  put_task upd (snd (put_task upd st)) = put_task upd st.
Proof.
  intros st upd. apply (put_idempotent upd st). vm_compute. reflexivity.
Defined.

(** X8. [PUT] on a task that is found stores the merge of the task with
    the whole body: every key of the body, known or not, is in the stored
    task with the body's value, every other key keeps the task's value,
    and the registry changes at that one position only. *)
Theorem put_merges_body (upd : request) (st : state) (t : gmap string value) :
  List.find (has_id (parseInt (params_id upd))) (tasks st) = Some t ->
  exists (k : nat) (t' : gmap string value),
    tasks st !! k = Some t /\
    put_task upd st
    = (Response 200 (Json (VObj t')), set_tasks (<[k := t']> (tasks st)) st) /\
    (forall key v, body upd !! key = Some v -> t' !! key = Some v) /\
    (forall key, body upd !! key = None -> t' !! key = t !! key).
Proof.
  intros Hfind.
  destruct (find_findIndex _ _ _ Hfind) as (k & Hk & Ht).
  exists k, (spread t (body upd)). split; [done|].
  split; [by apply put_task_found|]. unfold spread. split.
  - intros key v Hv. by apply lookup_union_Some_l.
  - intros key Hv. by apply lookup_union_r.
Qed.

Lemma put_merges_body_witness :
  let st := snd (run [Create 0 ∅] (initial None)) in
  let upd := Request {[ "priority" := VNum 3 ]} "1" ∅ in
  let t := default ∅ (tasks st !! 0%nat) in
  exists (k : nat) (t' : gmap string value),
    tasks st !! k = Some t /\
    put_task upd st
    = (Response 200 (Json (VObj t')), set_tasks (<[k := t']> (tasks st)) st) /\
    (forall key v, body upd !! key = Some v -> t' !! key = Some v) /\
    (forall key, body upd !! key = None -> t' !! key = t !! key).
Proof.
  intros st upd t. apply (put_merges_body upd st t).
  vm_compute. reflexivity.
Defined.

(** X9. A [DELETE] that answers 204 removes one task, the first of the
    registry with the id; the tasks before and after it stay, in order,
    also those that share the id. *)
Theorem delete_removes_first (req : request) (st : state) :
  status (fst (delete_task req st)) = 204 ->
  exists before t after,
    tasks st = (before ++ t :: after)%list /\
    has_id (parseInt (params_id req)) t = true /\
    Forall (fun x => has_id (parseInt (params_id req)) x = false) before /\
    tasks (snd (delete_task req st)) = (before ++ after)%list /\
    users_file (snd (delete_task req st)) = users_file st.
Proof.
  unfold delete_task.
  destruct (findIndex (has_id (parseInt (params_id req))) (tasks st))
    as [k|] eqn:Hk; [|discriminate].
  intros _. destruct (findIndex_split _ _ _ Hk) as (b & t & a & ? & ? & ? & ?).
  by exists b, t, a.
Qed.

Lemma delete_removes_first_witness :
  let st := snd (run [Create 0 ∅; Create 1 ∅; Delete "1"; Create 2 ∅]
                   (initial None)) in
  exists before t after,
    tasks st = (before ++ t :: after)%list /\
    has_id (parseInt "2") t = true /\
    Forall (fun x => has_id (parseInt "2") x = false) before /\
    tasks (snd (delete_task (Request ∅ "2" ∅) st)) = (before ++ after)%list /\
    users_file (snd (delete_task (Request ∅ "2" ∅) st)) = users_file st.
Proof.
  intros st. apply (delete_removes_first (Request ∅ "2" ∅) st).
  vm_compute. reflexivity.
Defined.

(** *** Create and the registry as a whole *)

(** X10. [POST /task] reads five properties of the body and nothing else:
    two bodies that agree on them get the same answer and leave the same
    state, so an [id], [status] or [creationDate] sent by the client is
    ignored, and the stored status is ["Pending"]. *)
Theorem create_reads_five_fields (now : Z) (req req' : request) (st : state) :
  Forall (fun k => get (body req) k = get (body req') k) task_fields ->
  post_task now req st = post_task now req' st /\
  exists task,
    fst (post_task now req st) = Response 201 (Json (VObj task)) /\
    get task "status" = VStr "Pending" /\
    get task "creationDate" = VDate now /\
    get task "id" = VNum (Z.of_nat (List.length (tasks st)) + 1).
Proof.
  intros Hsame. unfold task_fields in Hsame.
  repeat (apply Forall_cons_1 in Hsame as [? Hsame]).
  split.
  - unfold post_task. by repeat match goal with H : get _ _ = get _ _ |- _ =>
      rewrite H; clear H end.
  - eexists. split; [reflexivity|]. split; [|split].
    + by rewrite !get_insert_ne, get_insert_eq by done.
    + by rewrite !get_insert_ne, get_insert_eq by done.
    + by rewrite get_insert_eq.
Qed.

Lemma create_reads_five_fields_witness :
  let req := Request (<["title" := VStr "Sample Task"]>
                        (<["status" := VStr "Completed"]>
                           (<["id" := VNum 99]> ∅))) "" ∅ in
  let req' := Request {[ "title" := VStr "Sample Task" ]} "" ∅ in
  post_task 5 req (initial None) = post_task 5 req' (initial None) /\
  exists task,
    fst (post_task 5 req (initial None)) = Response 201 (Json (VObj task)) /\
    get task "status" = VStr "Pending" /\
    get task "creationDate" = VDate 5 /\
    get task "id" = VNum (Z.of_nat (List.length (tasks (initial None))) + 1).
Proof.
  intros req req'. apply (create_reads_five_fields 5 req req' (initial None)).
  repeat constructor.
Defined.

Lemma step_length (o : task_op) (st : state) :
  Z.of_nat (List.length (tasks (snd (step o st))))
  = Z.of_nat (List.length (tasks st))
    + (if status (fst (step o st)) =? 201 then 1 else 0)
    - (if status (fst (step o st)) =? 204 then 1 else 0).
Proof.
  destruct o as [now fields|id fields|id|id]; cbn [step].
  - rewrite post_task_length. cbn. lia.
  - unfold put_task.
    destruct (findIndex _ (tasks st)) as [k|]; cbn; [|lia].
    rewrite length_insert. lia.
  - unfold delete_task.
    destruct (findIndex _ (tasks st)) as [k|] eqn:Hk; cbn; [|lia].
    destruct (findIndex_find _ _ _ Hk) as (t & Ht & _).
    pose proof (lookup_lt_Some _ _ _ Ht).
    rewrite length_delete by eauto. lia.
  - unfold get_task. destruct (List.find _ (tasks st)); cbn; lia.
Qed.

(** X11. Over any sequence of creates, updates, deletes and fetches, the
    number of tasks grows by the number of 201 answers and shrinks by the
    number of 204 answers. *)
Theorem registry_size (ops : list task_op) (st : state) :
  Z.of_nat (List.length (tasks (snd (run ops st))))
  = Z.of_nat (List.length (tasks st))
    + Z.of_nat (count_status 201 (fst (run ops st)))
    - Z.of_nat (count_status 204 (fst (run ops st))).
Proof.
  revert st. induction ops as [|o ops IH]; intros st.
  - cbn. lia.
  - rewrite run_cons. cbn [fst snd]. rewrite IH, step_length.
    unfold count_status. cbn [List.filter].
    destruct (status (fst (step o st)) =? 201),
             (status (fst (step o st)) =? 204); cbn [List.length]; lia.
Qed.

(** X12. From the empty registry, creates alone leave tasks whose ids are
    pairwise different. *)
Theorem creates_only_distinct_ids (ops : list task_op)
    (file : option (list (gmap string value))) :
  Forall is_create ops ->
  NoDup (ids (snd (run ops (initial file)))) /\
  List.length (ids (snd (run ops (initial file)))) = List.length ops.
Proof.
  intros Hops. split; [by apply run_creates_ids_NoDup|].
  rewrite (run_creates_ids _ _ Hops). cbn.
  by rewrite length_fmap, length_seq.
Qed.

Lemma creates_only_distinct_ids_witness :
  NoDup (ids (snd (run [Create 0 ∅; Create 1 ∅; Create 2 ∅] (initial None)))) /\
  List.length (ids (snd (run [Create 0 ∅; Create 1 ∅; Create 2 ∅] (initial None))))
  = List.length [Create 0 ∅; Create 1 ∅; Create 2 ∅].
Proof.
  apply (creates_only_distinct_ids [Create 0 ∅; Create 1 ∅; Create 2 ∅] None).
  repeat constructor.
Defined.

(** *** Listing *)

Lemma filter_none {A} (p : A -> bool) (l : list A) :
  (forall x, p x = false) -> List.filter p l = [].
Proof.
  intros Hp. induction l as [|x l IH]; simpl; [done|]. by rewrite Hp.
Qed.

Lemma strict_eq_array (v : value) (l : list value) : strict_eq v (VArr l) = false.
Proof. by destruct v. Qed.

(** X13. A filter parameter that arrives as an array (the parameter given
    twice in the query string) matches no task: the answer is 200 with
    the empty list. *)
Theorem array_filter_lists_nothing (req : request) (st : state) (l : list value) :
  get (query req) "assignedTo" = VArr l \/ get (query req) "category" = VArr l ->
  get_tasks req st = (Response 200 (tasks_json []), st).
Proof.
  intros Harr. unfold get_tasks.
  destruct Harr as [H|H]; rewrite H; cbn [truthy orb].
  - rewrite (filter_none (fun task => strict_eq (get task "assignedTo") (VArr l)))
      by (intros; apply strict_eq_array).
    by destruct (truthy (get (query req) "category")).
  - rewrite orb_true_r.
    by rewrite (filter_none (fun task => strict_eq (get task "category") (VArr l)))
      by (intros; apply strict_eq_array).
Qed.

Lemma array_filter_lists_nothing_witness :
  let st := snd (run [Create 0 {[ "assignedTo" := VStr "alice" ]}] (initial None)) in
  let req := Request ∅ "" {[ "assignedTo" := VArr [VStr "alice"; VStr "bob"] ]} in
  get_tasks req st = (Response 200 (tasks_json []), st).
Proof.
  intros st req.
  apply (array_filter_lists_nothing req st [VStr "alice"; VStr "bob"]).
  left. vm_compute. reflexivity.
Defined.

(** *** The application as a whole *)

Section Application.
Context {salt : Type}.
Variable hashSync : string -> Z -> salt -> string.
Variable compareSync : string -> string -> bool.

Local Abbreviation handle := (serve hashSync compareSync).
Local Abbreviation handle_all := (serve_all hashSync compareSync).

Lemma serve_all_cons (c : call salt) (cs : list (call salt)) (st : state) :
  handle_all (c :: cs) st
  = (fst (handle c st) :: fst (handle_all cs (snd (handle c st))),
     snd (handle_all cs (snd (handle c st)))).
Proof.
  cbn [serve_all]. destruct (handle c st) as [r st']. cbn [fst snd].
  by destruct (handle_all cs st').
Qed.

Lemma post_login_state (req : request) (st : state) :
  snd (post_login compareSync req st) = st.
Proof.
  unfold post_login. destruct (_ || _); [done|].
  destruct (List.find _ _) as [user|]; [|done].
  by destruct (bcrypt_compareSync _ _ _) as [[]|].
Qed.

(** X14. The routes that only read leave the whole state as it is:
    [GET /], [GET /task/:id], [GET /tasks] and [POST /login]. *)
Theorem read_routes_keep_state (req : request) (st : state) :
  snd (get_root req st) = st /\
  snd (get_task req st) = st /\
  snd (get_tasks req st) = st /\
  snd (post_login compareSync req st) = st.
Proof.
  repeat split.
  - unfold get_task. by destruct (List.find _ _).
  - unfold get_tasks. by destruct (_ || _).
  - apply post_login_state.
Qed.

(** A task route sees and changes the [tasks] array only. *)
Lemma task_call_local (c : call salt) (st st' : state) :
  is_task_call c = true ->
  tasks st = tasks st' ->
  fst (handle c st) = fst (handle c st') /\
  tasks (snd (handle c st)) = tasks (snd (handle c st')) /\
  users_file (snd (handle c st)) = users_file st.
Proof.
  intros Hc Ht.
  destruct c as [s req|req|req|now req|req|req|req|req]; try discriminate Hc;
    cbn [serve].
  - done.
  - unfold post_task. by rewrite Ht.
  - unfold get_task. rewrite Ht. by destruct (List.find _ _).
  - unfold put_task. rewrite Ht. by destruct (findIndex _ _).
  - unfold delete_task. rewrite Ht. by destruct (findIndex _ _).
  - unfold get_tasks. rewrite Ht. by destruct (_ || _).
Qed.

(** A credential route sees and changes the users file only. *)
Lemma credential_call_local (c : call salt) (st st' : state) :
  is_task_call c = false ->
  users_file st = users_file st' ->
  fst (handle c st) = fst (handle c st') /\
  users_file (snd (handle c st)) = users_file (snd (handle c st')) /\
  tasks (snd (handle c st)) = tasks st.
Proof.
  intros Hc Hu.
  destruct c as [s req|req|req|now req|req|req|req|req]; try discriminate Hc;
    cbn [serve].
  - unfold post_register, readUsers. rewrite Hu.
    destruct (_ || _); [done|]. destruct (existsb _ _); [done|].
    by destruct (bcrypt_hashSync _ _ _ _).
  - unfold post_login, readUsers. rewrite Hu.
    destruct (_ || _); [done|]. destruct (List.find _ _) as [user|]; [|done].
    by destruct (bcrypt_compareSync _ _ _) as [[]|].
Qed.

Lemma tasks_of_task_calls (cs : list (call salt)) (st st' : state) :
  tasks st = tasks st' ->
  tasks (snd (handle_all cs st))
  = tasks (snd (handle_all (List.filter is_task_call cs) st')).
Proof.
  revert st st'. induction cs as [|c cs IH]; intros st st' Ht; [done|].
  rewrite serve_all_cons. cbn [snd List.filter].
  destruct (is_task_call c) eqn:Hc.
  - rewrite serve_all_cons. cbn [snd]. apply IH.
    by apply (task_call_local c st st' Hc Ht).
  - apply IH. rewrite <- Ht.
    by apply (credential_call_local c st st Hc eq_refl).
Qed.

Lemma users_of_credential_calls (cs : list (call salt)) (st st' : state) :
  users_file st = users_file st' ->
  users_file (snd (handle_all cs st))
  = users_file (snd (handle_all (List.filter (fun c => negb (is_task_call c)) cs) st')).
Proof.
  revert st st'. induction cs as [|c cs IH]; intros st st' Hu; [done|].
  rewrite serve_all_cons. cbn [snd List.filter].
  destruct (is_task_call c) eqn:Hc; cbn [negb].
  - apply IH. rewrite <- Hu.
    by apply (task_call_local c st st Hc eq_refl).
  - rewrite serve_all_cons. cbn [snd]. apply IH.
    by apply (credential_call_local c st st' Hc Hu).
Qed.

(** X15. The two stores do not interfere: after any sequence of requests,
    the registry is the one the task requests alone would have left, and
    the users file is the one the register and login requests alone would
    have left. *)
Theorem stores_do_not_interfere (cs : list (call salt)) (st : state) :
  tasks (snd (handle_all cs st))
  = tasks (snd (handle_all (List.filter is_task_call cs) st)) /\
  users_file (snd (handle_all cs st))
  = users_file (snd (handle_all (List.filter (fun c => negb (is_task_call c)) cs) st)).
Proof.
  split; [by apply tasks_of_task_calls | by apply users_of_credential_calls].
Qed.

(** *** The users file *)

Lemma post_register_cases (s : salt) (req : request) (st : state) :
  (status (fst (post_register hashSync s req st)) = 201 /\
   exists h : string,
     snd (post_register hashSync s req st)
     = writeUsers
         (readUsers st ++
          [ <["username" := get (body req) "username"]>
              (<["password" := VStr h]> ∅) ])
         st)
  \/
  (status (fst (post_register hashSync s req st)) <> 201 /\
   snd (post_register hashSync s req st) = st).
Proof.
  unfold post_register.
  destruct (_ || _); [by right|].
  destruct (existsb _ _); [by right|].
  destruct (bcrypt_hashSync _ _ _ _) as [h|]; [|by right].
  left. split; [done|]. by exists h.
Qed.






Lemma serve_users_prefix (c : call salt) (st : state) :
  readUsers st `prefix_of` readUsers (snd (handle c st)).
Proof.
  destruct (is_task_call c) eqn:Hc.
  - unfold readUsers.
    by rewrite (proj2 (proj2 (task_call_local c st st Hc eq_refl))).
  - destruct c as [s req|req|req|now req|req|req|req|req]; try discriminate Hc;
      cbn [serve].
    + destruct (post_register_cases s req st) as [[_ [h ->]]|[_ ->]]; [|done].
      change (readUsers (writeUsers ?us st)) with us. by apply prefix_app_r.
    + by rewrite post_login_state.
Qed.

Lemma serve_all_users_prefix (cs : list (call salt)) (st : state) :
  readUsers st `prefix_of` readUsers (snd (handle_all cs st)).
Proof.
  revert st. induction cs as [|c cs IH]; intros st; [done|].
  rewrite serve_all_cons. cbn [snd].
  etrans; [apply serve_users_prefix | apply IH].
Qed.

(** X18. No request removes or alters a user record: after any sequence
    of requests the users array is the one before, unchanged and in the
    same order, followed by the records appended since. *)
Theorem users_only_appended (cs : list (call salt)) (st : state) :
  exists appended,
    readUsers (snd (handle_all cs st)) = (readUsers st ++ appended)%list.
Proof. apply serve_all_users_prefix. Qed.

(** X19. Once a registration of a username (a string) is answered 201,
    every later registration of that username with a password that is
    present is answered 409, whatever requests come in between. *)
Theorem registered_username_is_taken (s s' : salt) (req req' : request)
    (cs : list (call salt)) (st : state) (u : string) :
  status (fst (post_register hashSync s req st)) = 201 ->
  get (body req) "username" = VStr u ->
  get (body req') "username" = VStr u ->
  truthy (get (body req') "password") = true ->
  let st' := snd (handle_all cs (snd (post_register hashSync s req st))) in
  post_register hashSync s' req' st'
  = (Response 409 (message "Username already exists"), st').
Proof.
  intros H201 Hu Hu' Hp' st'.
  destruct (post_register_cases s req st) as [[_ [h Hh]]|[Hne _]]; [|done].
  assert (Htruthy : truthy (VStr u) = true).
  { unfold post_register in H201. rewrite Hu in H201.
    by destruct (truthy (VStr u)). }
  destruct (serve_all_users_prefix cs (snd (post_register hashSync s req st)))
    as [more Hmore].
  fold st' in Hmore. rewrite Hh, Hu in Hmore.
  change (readUsers (writeUsers ?us st)) with us in Hmore.
  unfold post_register. rewrite Hu', Htruthy, Hp'. cbn [negb orb].
  rewrite Hmore, !existsb_app. cbn [existsb].
  unfold has_username at 2. rewrite get_insert_eq. cbn [strict_eq].
  by rewrite String.eqb_refl, orb_true_r.
Qed.

(** X20. A 200 from [POST /login] means what it should: the users array
    has a record with the username of the body, and the password of the
    body verifies against the hash of the first such record. *)
Theorem login_sound (req : request) (st : state) :
  status (fst (post_login compareSync req st)) = 200 ->
  exists (user : gmap string value) (p h : string),
    List.find (has_username (get (body req) "username")) (readUsers st) = Some user /\
    get (body req) "password" = VStr p /\
    get user "password" = VStr h /\
    compareSync p h = true.
Proof.
  unfold post_login.
  destruct (_ || _); [discriminate|].
  destruct (List.find _ _) as [user|]; [|discriminate].
  unfold bcrypt_compareSync.
  destruct (get (body req) "password") as [| | | | |p| | |]; try discriminate.
  destruct (get user "password") as [| | | | |h| | |] eqn:Hh; try discriminate.
  destruct (compareSync p h) eqn:Hok; [|discriminate].
  intros _. by exists user, p, h.
Qed.

End Application.


Lemma registered_username_is_taken_witness :
  let st := initial None in
  let req := credentials "newUser" "newPassword" in
  let req' := credentials "newUser" "otherPassword" in
  let cs := [ PostLogin (credentials "newUser" "newPassword");
              PostRegister "thyme" (credentials "testUser" "testPassword") ] in
  let st' := snd (serve_all sample_hashSync sample_compareSync cs
                    (snd (post_register sample_hashSync "pepper" req st))) in
  post_register sample_hashSync "sage" req' st'
  = (Response 409 (message "Username already exists"), st').
Proof.
  intros st req req' cs.
  apply (registered_username_is_taken sample_hashSync sample_compareSync
           "pepper" "sage" req req' cs st "newUser").
  - vm_compute. reflexivity.
  - vm_compute. reflexivity.
  - vm_compute. reflexivity.
  - vm_compute. reflexivity.
Defined.

Lemma login_sound_witness :
  let st := initial (Some [ <["username" := VStr "testUser"]>
                              (<["password" := VStr "salttestPassword"]> ∅) ]) in
  let req := credentials "testUser" "testPassword" in
  exists (user : gmap string value) (p h : string),
    List.find (has_username (get (body req) "username")) (readUsers st) = Some user /\
    get (body req) "password" = VStr p /\
    get user "password" = VStr h /\
    sample_compareSync p h = true.
Proof.
  intros st req. apply (login_sound sample_compareSync req st).
  vm_compute. reflexivity.
Defined.

(** *** The test suite *)

Lemma filter_all_pass {A} (p : A -> bool) (l : list A) :
  Forall (fun x => p x = true) l -> List.filter p l = l.
Proof.
  induction 1 as [|x l Hx _ IH]; simpl; [done|]. by rewrite Hx, IH.
Qed.

Lemma findIndex_last {A} (p : A -> bool) (l : list A) (x : A) :
  List.find p l = None ->
  p x = true ->
  findIndex p (l ++ [x]) = Some (List.length l).
Proof.
  intros Hnone Hx. induction l as [|y l IH]; simpl in *; [by rewrite Hx|].
  destruct (p y); [discriminate|]. by rewrite IH.
Qed.

Lemma delete_last {A} (l : list A) (x : A) :
  delete (List.length l) (l ++ [x])%list = l.
Proof. induction l as [|y l IH]; simpl; [done|]. by rewrite IH. Qed.

Lemma has_username_record (u u' : string) (m : gmap string value) :
  has_username (VStr u) (<["username" := VStr u']> m) = String.eqb u' u.
Proof. unfold has_username. by rewrite get_insert_eq. Qed.

Section TestSuite.
Context {salt : Type}.
Variable hashSync : string -> Z -> salt -> string.
Variable compareSync : string -> string -> bool.

Lemma post_register_created (s : salt) (u p : string) (st : state) :
  u ≠ "" ->
  p ≠ "" ->
  List.find (has_username (VStr u)) (readUsers st) = None ->
  post_register hashSync s (credentials u p) st
  = (Response 201 (message "User registered successfully"),
     writeUsers
       (readUsers st ++
        [ <["username" := VStr u]> (<["password" := VStr (hashSync p 10 s)]> ∅) ])
       st).
Proof.
  intros Hu Hp Hnone. apply truthy_str in Hu. apply truthy_str in Hp.
  unfold post_register, credentials. cbn [body].
  rewrite get_insert_eq, get_insert_ne, get_insert_eq by done.
  rewrite Hu, Hp. cbn [negb orb].
  by rewrite (existsb_find_None _ _ Hnone).
Qed.

Lemma post_register_taken (s : salt) (u p : string) (st : state) :
  u ≠ "" ->
  p ≠ "" ->
  existsb (has_username (VStr u)) (readUsers st) = true ->
  post_register hashSync s (credentials u p) st
  = (Response 409 (message "Username already exists"), st).
Proof.
  intros Hu Hp Htaken. apply truthy_str in Hu. apply truthy_str in Hp.
  unfold post_register, credentials. cbn [body].
  rewrite get_insert_eq, get_insert_ne, get_insert_eq by done.
  rewrite Hu, Hp. cbn [negb orb]. by rewrite Htaken.
Qed.

Lemma post_login_checked (u p h : string) (user : gmap string value) (st : state) :
  u ≠ "" ->
  p ≠ "" ->
  List.find (has_username (VStr u)) (readUsers st) = Some user ->
  get user "password" = VStr h ->
  post_login compareSync (credentials u p) st
  = (if compareSync p h
     then Response 200 (message "Login successful")
     else Response 401 (message "Invalid username or password"), st).
Proof.
  intros Hu Hp Hfind Hh. apply truthy_str in Hu. apply truthy_str in Hp.
  unfold post_login, credentials. cbn [body].
  rewrite get_insert_eq, get_insert_ne, get_insert_eq by done.
  rewrite Hu, Hp. cbn [negb orb]. rewrite Hfind, Hh. cbn.
  by destruct (compareSync p h).
Qed.

Lemma post_login_unknown (u p : string) (st : state) :
  u ≠ "" ->
  p ≠ "" ->
  List.find (has_username (VStr u)) (readUsers st) = None ->
  post_login compareSync (credentials u p) st
  = (Response 401 (message "Invalid username or password"), st).
Proof.
  intros Hu Hp Hnone. apply truthy_str in Hu. apply truthy_str in Hp.
  unfold post_login, credentials. cbn [body].
  rewrite get_insert_eq, get_insert_ne, get_insert_eq by done.
  rewrite Hu, Hp. cbn [negb orb]. by rewrite Hnone.
Qed.

(** X21. The authentication tests pass, and the suite cleans up after
    itself: on a users file that can be read and holds no record of
    testUser, newUser or nonExistingUser, with a bcrypt that accepts
    testPassword and rejects wrongPassword against the hash made in
    [beforeAll], the seven requests are answered 201, 409, 400, 200, 401,
    401, 400, and [afterAll] leaves the state that was there before
    [beforeAll]. *)
Theorem authentication_tests_pass (s0 s1 s2 s3 : salt) (st : state)
    (users : list (gmap string value)) :
  users_file st = Some users ->
  Forall (fun user => get user "username" ≠ VStr "testUser") users ->
  Forall (fun user => get user "username" ≠ VStr "newUser") users ->
  Forall (fun user => get user "username" ≠ VStr "nonExistingUser") users ->
  compareSync "testPassword" (hashSync "testPassword" 10 s0) = true ->
  compareSync "wrongPassword" (hashSync "testPassword" 10 s0) = false ->
  exists st1 : state,
    beforeAll hashSync s0 st = Ok st1 /\
    status <$> fst (serve_all hashSync compareSync (authentication_tests s1 s2 s3) st1)
    = [201; 409; 400; 200; 401; 401; 400] /\
    afterAll (snd (serve_all hashSync compareSync (authentication_tests s1 s2 s3) st1))
    = Ok st.
Proof.
  intros Hfile Htest Hnew Hnon Hgood Hbad.
  apply unused_username_find in Htest as Ftest.
  apply unused_username_find in Hnew as Fnew.
  apply unused_username_find in Hnon as Fnon.
  set (T := (<["username" := VStr "testUser"]>
               (<["password" := VStr (hashSync "testPassword" 10 s0)]> ∅))
            : gmap string value).
  set (N := (<["username" := VStr "newUser"]>
               (<["password" := VStr (hashSync "newPassword" 10 s1)]> ∅))
            : gmap string value).
  set (st1 := writeUsers (users ++ [T]) st).
  set (st2 := writeUsers ((users ++ [T]) ++ [N]) st1).
  exists st1. split; [unfold beforeAll; by rewrite Hfile|].
  assert (E1 : post_register hashSync s1 (credentials "newUser" "newPassword") st1
               = (Response 201 (message "User registered successfully"), st2)).
  { apply post_register_created; [done|done|].
    change (readUsers st1) with (users ++ [T])%list.
    rewrite (find_app_None _ _ _ Fnew). cbn [List.find].
    unfold T. by rewrite has_username_record. }
  assert (E2 : post_register hashSync s2 (credentials "testUser" "testPassword") st2
               = (Response 409 (message "Username already exists"), st2)).
  { apply post_register_taken; [done|done|].
    change (readUsers st2) with ((users ++ [T]) ++ [N])%list.
    rewrite !existsb_app. cbn [existsb]. unfold T at 1.
    rewrite has_username_record. cbn.
    apply orb_true_iff. left. apply orb_true_r. }
  assert (Hinvalid : truthy (get (body invalid_body) "username") = false)
    by (vm_compute; reflexivity).
  assert (E3 : post_register hashSync s3 invalid_body st2
               = (Response 400 (message "Username and password are required"), st2)).
  { exact (proj1 (falsy_field_bad_request hashSync compareSync s3 invalid_body st2
                    (or_introl Hinvalid))). }
  assert (Ffound : List.find (has_username (VStr "testUser")) (readUsers st2) = Some T).
  { change (readUsers st2) with ((users ++ [T]) ++ [N])%list.
    rewrite <- app_assoc, (find_app_None _ _ _ Ftest). cbn [List.find app].
    unfold T at 1. by rewrite has_username_record. }
  assert (Hhash : get T "password" = VStr (hashSync "testPassword" 10 s0)).
  { unfold T. by rewrite get_insert_ne, get_insert_eq. }
  assert (E4 : post_login compareSync (credentials "testUser" "testPassword") st2
               = (Response 200 (message "Login successful"), st2)).
  { rewrite (post_login_checked "testUser" "testPassword"
               (hashSync "testPassword" 10 s0) T st2);
      [by rewrite Hgood | done | done | done | done]. }
  assert (E5 : post_login compareSync (credentials "testUser" "wrongPassword") st2
               = (Response 401 (message "Invalid username or password"), st2)).
  { rewrite (post_login_checked "testUser" "wrongPassword"
               (hashSync "testPassword" 10 s0) T st2);
      [by rewrite Hbad | done | done | done | done]. }
  assert (E6 : post_login compareSync (credentials "nonExistingUser" "anyPassword") st2
               = (Response 401 (message "Invalid username or password"), st2)).
  { apply post_login_unknown; [done|done|].
    change (readUsers st2) with ((users ++ [T]) ++ [N])%list.
    rewrite <- app_assoc, (find_app_None _ _ _ Fnon). cbn [List.find app].
    unfold T at 1, N at 1. by rewrite !has_username_record. }
  assert (E7 : post_login compareSync invalid_body st2
               = (Response 400 (message "Username and password are required"), st2)).
  { exact (proj2 (falsy_field_bad_request hashSync compareSync s3 invalid_body st2
                    (or_introl Hinvalid))). }
  unfold authentication_tests.
  rewrite !serve_all_cons. cbn [serve serve_all fst snd].
  rewrite E1. cbn [fst snd]. rewrite E2. cbn [fst snd]. rewrite E3. cbn [fst snd].
  rewrite E4. cbn [fst snd]. rewrite E5. cbn [fst snd]. rewrite E6. cbn [fst snd].
  rewrite E7. cbn [fst snd]. split; [done|].
  unfold afterAll. cbn [users_file st2 writeUsers].
  rewrite <- app_assoc, List.filter_app. cbn [app List.filter].
  unfold T at 1, N at 1. rewrite !get_insert_eq. cbn [strict_eq String.eqb].
  cbn. rewrite app_nil_r, filter_all_pass.
  - destruct st as [file ts]. cbn in *. by rewrite Hfile.
  - apply Forall_forall. intros user Hin.
    pose proof (proj1 (Forall_forall _ _) Htest user Hin) as H1.
    pose proof (proj1 (Forall_forall _ _) Hnew user Hin) as H2. cbn beta.
    apply andb_true_iff. split; apply negb_true_iff;
      (destruct (strict_eq _ _) eqn:E; [apply strict_eq_str in E; done | done]).
Qed.

Lemma get_tasks_ok (req : request) (st : state) :
  status (fst (get_tasks req st)) = 200 /\ snd (get_tasks req st) = st.
Proof. unfold get_tasks. by destruct (_ || _). Qed.

Lemma set_tasks_same (st : state) : set_tasks (tasks st) st = st.
Proof. by destruct st. Qed.

Lemma set_tasks_twice (ts ts' : list (gmap string value)) (st : state) :
  set_tasks ts (set_tasks ts' st) = set_tasks ts st.
Proof. done. Qed.

(** X22. The task tests pass on any registry in which no task holds the id
    [tasks.length + 1], whatever the task data and the clock: the seven
    requests are answered 201, 200, 200, 204, 200, 200, 200, the fetch
    answers with the body of the create, and the suite leaves the state
    it found (its delete removes the task its create added). *)
Theorem task_tests_pass (now : Z) (taskData : gmap string value) (st : state) :
  List.find (has_id (VNum (Z.of_nat (List.length (tasks st)) + 1))) (tasks st)
  = None ->
  status <$> fst (task_tests hashSync compareSync now taskData st)
  = [201; 200; 200; 204; 200; 200; 200] /\
  fst (task_tests hashSync compareSync now taskData st) !! 1%nat
  = Some (Response 200 (sent (fst (post_task now (Request taskData "" ∅) st)))) /\
  snd (task_tests hashSync compareSync now taskData st) = st.
Proof.
  intros Hfree. unfold task_tests.
  destruct (post_task_state now (Request taskData "" ∅) st) as (task & -> & Hid).
  assert (Hret : returned_id (Response 201 (Json (VObj task)))
                 = Some (Z.of_nat (List.length (tasks st)) + 1))
    by (unfold returned_id; cbn [sent]; by rewrite Hid).
  rewrite Hret. cbn [template fst sent].
  set (id := number_to_string (Z.of_nat (List.length (tasks st)) + 1)).
  set (st1 := set_tasks (tasks st ++ [task]) st).
  assert (Hparse : parseInt id = VNum (Z.of_nat (List.length (tasks st)) + 1))
    by (apply parseInt_number_to_string; lia).
  assert (Hhas : has_id (parseInt id) task = true)
    by (rewrite Hparse; by apply has_id_num).
  assert (Hk : findIndex (has_id (parseInt id)) (tasks st1)
               = Some (List.length (tasks st)))
    by (apply findIndex_last; [by rewrite Hparse | done]).
  assert (Ht : tasks st1 !! List.length (tasks st) = Some task)
    by (cbn [st1 tasks set_tasks]; by apply list_lookup_middle).
  assert (EG : get_task (Request ∅ id ∅) st1
               = (Response 200 (Json (VObj task)), st1)).
  { unfold get_task. cbn [params_id].
    by destruct (findIndex_find _ _ _ Hk) as (t & Ht' & _ & ->); simplify_eq. }
  assert (EP : put_task (Request ∅ id ∅) st1
               = (Response 200 (Json (VObj task)), st1)).
  { rewrite (put_task_found (Request ∅ id ∅) st1 _ task Hk Ht).
    cbn [body]. unfold spread.
    rewrite (left_id_L ∅ (∪)), list_insert_id by done.
    by rewrite set_tasks_same. }
  assert (ED : delete_task (Request ∅ id ∅) st1 = (Response 204 NoBody, st)).
  { rewrite (delete_task_found (Request ∅ id ∅) st1 _ Hk).
    change (tasks st1) with (tasks st ++ [task])%list. rewrite delete_last.
    unfold st1. by rewrite set_tasks_twice, set_tasks_same. }
  rewrite !serve_all_cons. cbn [serve serve_all fst snd].
  rewrite EG. cbn [fst snd]. rewrite EP. cbn [fst snd]. rewrite ED. cbn [fst snd].
  rewrite !(proj2 (get_tasks_ok _ st)).
  cbn [fmap list_fmap status]. rewrite !(proj1 (get_tasks_ok _ st)).
  done.
Qed.

End TestSuite.

Lemma authentication_tests_pass_witness :
  let st := initial (Some [ <["username" := VStr "alice"]>
                              (<["password" := VStr "saltsecret"]> ∅) ]) in
  exists st1 : state,
    beforeAll sample_hashSync "salt" st = Ok st1 /\
    status <$> fst (serve_all sample_hashSync sample_compareSync
                      (authentication_tests "pepper" "thyme" "sage") st1)
    = [201; 409; 400; 200; 401; 401; 400] /\
    afterAll (snd (serve_all sample_hashSync sample_compareSync
                     (authentication_tests "pepper" "thyme" "sage") st1))
    = Ok st.
Proof.
  intros st.
  apply (authentication_tests_pass sample_hashSync sample_compareSync
           "salt" "pepper" "thyme" "sage" st
           [ <["username" := VStr "alice"]> (<["password" := VStr "saltsecret"]> ∅) ]).
  - reflexivity.
  - repeat constructor. vm_compute. discriminate.
  - repeat constructor. vm_compute. discriminate.
  - repeat constructor. vm_compute. discriminate.
  - vm_compute. reflexivity.
  - vm_compute. reflexivity.
Defined.

Lemma task_tests_pass_witness :
  let taskData : gmap string value :=
    <["title" := VStr "Sample Task"]>
      (<["assignedTo" := VStr "username"]>
         (<["category" := VStr "Sample Category"]> ∅)) in
  status <$> fst (task_tests sample_hashSync sample_compareSync 0 taskData (initial None))
  = [201; 200; 200; 204; 200; 200; 200] /\
  fst (task_tests sample_hashSync sample_compareSync 0 taskData (initial None)) !! 1%nat
  = Some (Response 200
            (sent (fst (post_task 0 (Request taskData "" ∅) (initial None))))) /\
  snd (task_tests sample_hashSync sample_compareSync 0 taskData (initial None))
  = initial None.
Proof.
  intros taskData.
  apply (task_tests_pass sample_hashSync sample_compareSync 0 taskData (initial None)).
  vm_compute. reflexivity.
Defined.

(** *** Requests that fail, users that stay *)

Lemma existsb_false_find {A} (p : A -> bool) (l : list A) :
  existsb p l = false -> List.find p l = None.
Proof.
  induction l as [|y l IH]; simpl; [done|].
  destruct (p y); [discriminate | done].
Qed.

Section Lifetime.
Context {salt : Type}.
Variable hashSync : string -> Z -> salt -> string.
Variable compareSync : string -> string -> bool.

(** What a 201 from [POST /register] tells, for string credentials. *)
Lemma post_register_201 (s : salt) (req : request) (st : state) (u p : string) :
  status (fst (post_register hashSync s req st)) = 201 ->
  get (body req) "username" = VStr u ->
  get (body req) "password" = VStr p ->
  truthy (VStr u) = true /\
  truthy (VStr p) = true /\
  List.find (has_username (VStr u)) (readUsers st) = None /\
  snd (post_register hashSync s req st)
  = writeUsers
      (readUsers st ++
       [ <["username" := VStr u]> (<["password" := VStr (hashSync p 10 s)]> ∅) ])
      st.
Proof.
  unfold post_register. intros H201 Hu Hp. rewrite Hu, Hp in *.
  destruct (truthy (VStr u)); [|discriminate].
  destruct (truthy (VStr p)); [|discriminate]. cbn [negb orb] in *.
  destruct (existsb _ _) eqn:Hnew; [discriminate|].
  by apply existsb_false_find in Hnew.
Qed.

(** X23. A user whose registration, with a string as username, was
    answered 201 can log in from then on: after any sequence of requests,
    a login with the same username and password is answered 200 (bcrypt
    accepting the password against the hash it made of it). *)
Theorem registered_user_can_log_in (s : salt) (reg login : request)
    (cs : list (call salt)) (st : state) (u p : string) :
  status (fst (post_register hashSync s reg st)) = 201 ->
  get (body reg) "username" = VStr u ->
  get (body reg) "password" = VStr p ->
  get (body login) "username" = VStr u ->
  get (body login) "password" = VStr p ->
  compareSync p (hashSync p 10 s) = true ->
  let st' := snd (serve_all hashSync compareSync cs
                    (snd (post_register hashSync s reg st))) in
  post_login compareSync login st'
  = (Response 200 (message "Login successful"), st').
Proof.
  intros H201 Hru Hrp Hlu Hlp Hbcrypt st'.
  destruct (post_register_201 s reg st u p H201 Hru Hrp)
    as (Hu & Hp & Hnone & Hst).
  destruct (serve_all_users_prefix hashSync compareSync cs
              (snd (post_register hashSync s reg st))) as [more Hmore].
  fold st' in Hmore. rewrite Hst in Hmore.
  change (readUsers (writeUsers ?us st)) with us in Hmore.
  apply (post_login_verified compareSync login st' u p (hashSync p 10 s)
           (<["username" := VStr u]> (<["password" := VStr (hashSync p 10 s)]> ∅)));
    [done | done | done | done | | | done].
  - rewrite Hmore, <- app_assoc, (find_app_None _ _ _ Hnone).
    cbn [app List.find]. by rewrite has_username_record, String.eqb_refl.
  - by rewrite get_insert_ne, get_insert_eq.
Qed.

(** X24. A request that is answered with an error status (400 and above)
    changes nothing, on every route. *)
Theorem failed_requests_change_nothing (c : call salt) (st : state) :
  400 <= status (fst (serve hashSync compareSync c st)) ->
  snd (serve hashSync compareSync c st) = st.
Proof.
  destruct c as [s req|req|req|now req|req|req|req|req]; cbn [serve].
  - destruct (post_register_cases hashSync s req st) as [[-> _]|[_ ->]];
      [lia | done].
  - intros _. apply post_login_state.
  - done.
  - unfold post_task. cbn. lia.
  - intros _. unfold get_task. by destruct (List.find _ _).
  - unfold put_task. destruct (findIndex _ _); cbn; [lia | done].
  - unfold delete_task. destruct (findIndex _ _); cbn; [lia | done].
  - intros _. apply get_tasks_ok.
Qed.

End Lifetime.

Lemma registered_user_can_log_in_witness :
  let st := initial None in
  let req := credentials "newUser" "newPassword" in
  let cs := [ PostRegister "thyme" (credentials "testUser" "testPassword");
              PostTask 3 (Request ∅ "" ∅);
              PostLogin (credentials "newUser" "wrongPassword") ] in
  let st' := snd (serve_all sample_hashSync sample_compareSync cs
                    (snd (post_register sample_hashSync "pepper" req st))) in
  post_login sample_compareSync req st'
  = (Response 200 (message "Login successful"), st').
Proof.
  intros st req cs.
  apply (registered_user_can_log_in sample_hashSync sample_compareSync
           "pepper" req req cs st "newUser" "newPassword").
  - vm_compute. reflexivity.
  - vm_compute. reflexivity.
  - vm_compute. reflexivity.
  - vm_compute. reflexivity.
  - vm_compute. reflexivity.
  - vm_compute. reflexivity.
Defined.

Lemma failed_requests_change_nothing_witness :
  let st := snd (run [Create 0 ∅] (initial None)) in
  snd (serve sample_hashSync sample_compareSync (DeleteTask (Request ∅ "7" ∅)) st)
  = st.
Proof.
  intros st.
  apply (failed_requests_change_nothing sample_hashSync sample_compareSync
           (DeleteTask (Request ∅ "7" ∅)) st).
  vm_compute. discriminate.
Defined.
